(** * A shallow embedding of [sphero_base/sphero.py]

    The Python module drives a Sphero robot over an RFCOMM byte stream.
    Integers are [Z]; a Python [bytes] object is a [list Z] of values in
    [0, 256).  Python exceptions are the constructors of [exn]; a method
    call is a computation in a state-and-exception monad [M] over the
    fields of a [Sphero] object, where the state reached before an
    exception is kept (Python mutates the object in place). *)

From Stdlib Require Import String.
From Stdlib Require Import ZArith List Lia Bool.
Import ListNotations.
Open Scope Z_scope.

(** ** Exceptions *)

(** The three [ResponseError] messages raised by [SpheroRaw.recv_msg]:
    ['Invalid SOP: 0x%02x, 0x%02x' % (sop1, sop2)],
    ['Invalid body length: %d' % (dlen,)] and ['Invalid checksum'],
    kept with the values they are formatted from. *)
Inductive resp_msg :=
| MsgInvalidSOP (sop1 sop2 : Z)
| MsgInvalidBodyLength (dlen : Z)
| MsgInvalidChecksum.

Inductive exn :=
| ResponseError (m : resp_msg)
| AttributeError (name : string)
| TypeError
| ValueError
| StructError
| OSError
| RuntimeError (msg : string).

(** The class of an exception, as an [except] clause sees it. *)
Inductive exn_cls := ClsResponseError | ClsAttributeError | ClsTypeError
  | ClsValueError | ClsStructError | ClsOSError | ClsRuntimeError.

Definition exn_class (e : exn) : exn_cls :=
  match e with
  | ResponseError _ => ClsResponseError
  | AttributeError _ => ClsAttributeError
  | TypeError => ClsTypeError
  | ValueError => ClsValueError
  | StructError => ClsStructError
  | OSError => ClsOSError
  | RuntimeError _ => ClsRuntimeError
  end.

Inductive res (A : Type) := Ok (a : A) | Exc (e : exn).
Arguments Ok {A} a.
Arguments Exc {A} e.

(** ** Python values used as a heading: [Sphero.__init__] stores the
    tuple [(0, 0, 0)], [Sphero.roll] stores whatever it is given. *)
Inductive pyval := VInt (z : Z) | VTuple (xs : list Z).

(** [heading % 360]: a tuple has no [%] with an int. *)
Definition py_mod360 (v : pyval) : res Z :=
  match v with
  | VInt z => Ok (z mod 360)
  | VTuple _ => Exc TypeError
  end.

(** [bytes([...])]: every item must lie in [range(256)]. *)
Definition py_bytes (l : list Z) : res (list Z) :=
  if forallb (fun x => (0 <=? x) && (x <? 256)) l then Ok l else Exc ValueError.

(** [struct.pack('!BHB', a, h, b)]. *)
Definition pack_BHB (a h b : Z) : res (list Z) :=
  if (0 <=? a) && (a <? 256) && (0 <=? h) && (h <? 65536) && (0 <=? b) && (b <? 256)
  then Ok [a; Z.shiftr h 8; Z.land h 255; b]
  else Exc StructError.

(** ** Checksum *)

(** [gen_checksum] over its positional arguments: [~sum(msg_bytes) % 256]. *)
Definition gen_checksum (msg_bytes : list Z) : Z :=
  Z.lnot (fold_right Z.add 0 msg_bytes) mod 256.

(** ** The simulated transport

    The RFCOMM socket is a simulated device: [pending] holds what the
    device has already written (delivered to [recv] chunk by chunk, an
    empty [pending] meaning the peer closed the stream), and [script]
    holds the reply the device writes after each frame it receives.  A
    [RecvErr] makes the [recv] that meets it raise [OSError]. *)
Inductive event := Chunk (b : list Z) | RecvErr.

(** A [Connection]: [connected] says whether [_socket] is set; [sent]
    records every frame passed to [socket.send] and [drains] every call
    of [flush]; both are observations, not fields of the Python object. *)
Record conn := mkConn {
  connected : bool;
  buffer : list Z;
  pending : list event;
  script : list (list event);
  sent : list (list Z);
  drains : nat
}.

Definition set_buffer (b : list Z) (c : conn) : conn :=
  mkConn (connected c) b (pending c) (script c) (sent c) (drains c).
Definition set_pending (p : list event) (c : conn) : conn :=
  mkConn (connected c) (buffer c) p (script c) (sent c) (drains c).
Definition set_connected (x : bool) (c : conn) : conn :=
  mkConn x (buffer c) (pending c) (script c) (sent c) (drains c).

(** [self._socket.recv(m)]: at most [m] bytes of the next chunk. *)
Definition sock_recv (m : Z) (c : conn) : res (list Z) * conn :=
  if negb (connected c) then (Exc (AttributeError "recv"), c) else
  match pending c with
  | [] => (Ok [], c)
  | RecvErr :: rest => (Exc OSError, set_pending rest c)
  | Chunk b :: rest =>
      let n := Z.to_nat m in
      (Ok (firstn n b),
       set_pending (match skipn n b with [] => rest | r => Chunk r :: rest end) c)
  end.

(** [Connection.send]: the device then writes its next scripted reply. *)
Definition conn_send (data : list Z) (c : conn) : res Z * conn :=
  if negb (connected c) then (Exc (RuntimeError "Not connected"), c) else
  (Ok (Z.of_nat (length data)),
   mkConn true (buffer c) (pending c ++ hd [] (script c)) (tl (script c))
          (sent c ++ [data]) (drains c)).

(** [Connection.disconnect]. *)
Definition conn_disconnect (c : conn) : res unit * conn :=
  if negb (connected c) then (Exc (RuntimeError "Not connected"), c)
  else (Ok tt, set_connected false c).

(** The [while to_read > 0] loop of [Connection.read].  [self.error] is
    looked up on a [Connection], which has no such attribute.  Called with
    [fuel > to_read]: every round lowers [to_read] by at least one, so the
    loop exits before the fuel runs out. *)
Fixpoint read_loop (fuel : nat) (to_read : Z) (c : conn) : res unit * conn :=
  match fuel with
  | O => (Ok tt, c)
  | S f =>
      if to_read >? 0 then
        match sock_recv to_read c with
        | (Exc e, c1) => (Exc e, c1)
        | (Ok [], c1) => (Exc (AttributeError "error"), c1)
        | (Ok data, c1) =>
            read_loop f (to_read - Z.of_nat (length data))
                      (set_buffer (buffer c1 ++ data) c1)
        end
      else (Ok tt, c)
  end.

(** [Connection.read(size)]. *)
Definition conn_read (size : nat) (c : conn) : res (list Z) * conn :=
  let to_read := Z.of_nat size - Z.of_nat (length (buffer c)) in
  match read_loop (S (Z.to_nat to_read)) to_read c with
  | (Exc e, c1) => (Exc e, c1)
  | (Ok _, c1) => (Ok (firstn size (buffer c1)), set_buffer (skipn size (buffer c1)) c1)
  end.

(** [Connection.flush]: one non-blocking [recv(1024)]; every exception is
    caught and logged. *)
Definition conn_flush (c : conn) : res unit * conn :=
  let c1 := snd (sock_recv 1024 c) in
  (Ok tt, mkConn (connected c1) (buffer c1) (pending c1) (script c1) (sent c1)
                 (S (drains c1))).

(** ** A [Sphero] object and its monad *)

(** [_conn], the [BoundCounter] [seq] (fields [n] and [mod]) and, for the
    [Sphero] subclass, [last_heading]. *)
Record sphero := mkSphero {
  s_conn : conn;
  seq_n : Z;
  seq_mod : Z;
  last_heading : pyval
}.

Definition M (A : Type) : Type := sphero -> res A * sphero.

Definition ret {A} (a : A) : M A := fun s => (Ok a, s).
Definition raise {A} (e : exn) : M A := fun s => (Exc e, s).
Definition bind {A B} (m : M A) (k : A -> M B) : M B :=
  fun s => match m s with
           | (Ok a, s1) => k a s1
           | (Exc e, s1) => (Exc e, s1)
           end.
Definition get : M sphero := fun s => (Ok s, s).
Definition raise_res {A} (r : res A) : M A :=
  match r with Ok a => ret a | Exc e => raise e end.

Notation "x <- m ; k" := (bind m (fun x => k))
  (at level 61, m at next level, right associativity).
Notation "m ;; k" := (bind m (fun _ => k))
  (at level 61, right associativity).

(** A [Connection] method called on [self._conn]. *)
Definition on_conn {A} (f : conn -> res A * conn) : M A :=
  fun s => let (r, c) := f (s_conn s) in
           (r, mkSphero c (seq_n s) (seq_mod s) (last_heading s)).

(** [try: m  except ResponseError as e: h(e)]. *)
Definition try_response {A} (m : M A) (h : resp_msg -> M A) : M A :=
  fun s => match m s with
           | (Exc (ResponseError r), s1) => h r s1
           | o => o
           end.

(** [BoundCounter.next]. *)
Definition seq_next : M Z :=
  fun s => let n := (seq_n s + 1) mod seq_mod s in
           (Ok n, mkSphero (s_conn s) n (seq_mod s) (last_heading s)).

(** ** [SpheroRaw] *)

Definition DID_CORE := 0.
Definition DID_SPHERO := 2.
Definition CMD_PING := 1.
Definition CMD_SET_RGB := 32.
Definition CMD_ROLL := 48.

(** [SpheroRaw.send_msg(did, cid, data=None, answer=False, reset=True, seq=None)]. *)
Definition send_msg (did cid : Z) (data : option (list Z)) (answer reset : bool)
    (seq : option Z) : M unit :=
  let sop1 := 255 in
  let sop2 := 252 in
  let sop2 := if reset then Z.lor sop2 2 else sop2 in
  let sop2 := if answer then Z.lor sop2 1 else sop2 in
  seq <- (if answer then
            match seq with None => n <- seq_next; ret (Some n) | Some _ => ret seq end
          else ret seq);
  let seq := match seq with None => 0 | Some q => q end in
  let data := match data with None => [] | Some d => d end in
  let dlen := Z.of_nat (length data) + 1 in
  let chk := gen_checksum ([did; cid; seq; dlen] ++ data) in
  hdr <- raise_res (py_bytes [sop1; sop2; did; cid; seq; dlen]);
  trailer <- raise_res (py_bytes [chk]);
  on_conn (conn_send (hdr ++ data ++ trailer)) ;;
  ret tt.

(** The [content] slot of a decoded reply: the raw bytes, or what [make]
    built from them. *)
Inductive content (A : Type) := Raw (b : list Z) | Made (a : A).
Arguments Raw {A} b.
Arguments Made {A} a.

Definition reply (A : Type) : Type := (Z * Z * Z * Z * Z * content A * Z)%type.

(** [SpheroRaw.recv_msg(make=None)]; [None] is Python's [None]. *)
Definition recv_msg {A} (make : option (list Z -> res A)) : M (option (reply A)) :=
  data <- on_conn (conn_read 5);
  match data with
  | [] => on_conn conn_disconnect ;; ret None
  | [sop1; sop2; b3; b4; b5] =>
      if negb (sop1 =? 255) || negb (Z.land sop2 254 =? 254) then
        raise (ResponseError (MsgInvalidSOP sop1 sop2))
      else
      let dlen := if sop2 =? 254 then Z.lor b5 (Z.shiftl b4 8) else b5 in
      if dlen <? 1 then raise (ResponseError (MsgInvalidBodyLength dlen)) else
      body <- on_conn (conn_read (Z.to_nat dlen));
      match body with
      | [] => on_conn conn_disconnect ;; ret None
      | _ =>
          let chk := gen_checksum ([b3; b4; b5] ++ removelast body) in
          let trailer := last body 0 in
          if chk =? trailer then
            c <- (match make with
                  | None => ret (Raw (removelast body))
                  | Some f => a <- raise_res (f (removelast body)); ret (Made a)
                  end);
            ret (Some (sop2, b3, b4, b5, chk, c, trailer))
          else raise (ResponseError MsgInvalidChecksum)
      end
  | _ => raise ValueError
  end.

(** [SpheroRaw.send_ping]. *)
Definition send_ping : M (option (reply unit)) :=
  send_msg DID_CORE CMD_PING None true true None ;;
  recv_msg None.

(** [SpheroRaw.send_set_rgb(r, g, b, save=False)]. *)
Definition send_set_rgb (r g b : Z) (save : bool) : M unit :=
  data <- raise_res (py_bytes [r; g; b; if save then 1 else 0]);
  send_msg DID_SPHERO CMD_SET_RGB (Some data) false true None.

(** [SpheroRaw.send_roll(speed, heading, state=0x01)]. *)
Definition send_roll (speed : Z) (heading : pyval) (state : Z) : M unit :=
  h <- raise_res (py_mod360 heading);
  data <- raise_res (pack_BHB speed h state);
  send_msg DID_SPHERO CMD_ROLL (Some data) false true None.

(** The remaining command ids. *)
Definition CMD_VERSIONING := 2.
Definition CMD_SLEEP := 34.
Definition CMD_SET_HEADING := 1.
Definition CMD_SET_STABILIZATION := 2.
Definition CMD_READ_LOCATOR := 21.
Definition CMD_SET_BACKLIGHT := 33.
Definition CMD_RAW_MOTOR := 51.

(** [BoundCounter.__call__]. *)
Definition seq_current : M Z := fun s => (Ok (seq_n s), s).

(** The [Version] namedtuple. *)
Record version := mkVersion {
  v_recv : Z; v_mdl : Z; v_hw : Z; v_msa_ver : Z; v_msa_rev : Z;
  v_bl : Z; v_bas : Z; v_macro : Z; v_api_maj : Z; v_api_min : Z
}.

(** The [Location] namedtuple. *)
Record location := mkLocation {
  l_x : Z; l_y : Z; l_vel_x : Z; l_vel_y : Z; l_sog : Z
}.

(** A big-endian [H] field of [struct.unpack]. *)
Definition be_u16 (hi lo : Z) : Z := hi * 256 + lo.

(** A big-endian [h] field of [struct.unpack]: two's complement. *)
Definition be_s16 (hi lo : Z) : Z :=
  let u := be_u16 hi lo in if u >=? 32768 then u - 65536 else u.

(** [make_response('!10B', Version)]: [struct.unpack] wants exactly ten
    bytes. *)
Definition make_version (data : list Z) : res version :=
  match data with
  | [a0; a1; a2; a3; a4; a5; a6; a7; a8; a9] =>
      Ok (mkVersion a0 a1 a2 a3 a4 a5 a6 a7 a8 a9)
  | _ => Exc StructError
  end.

(** [make_response('!hhhhH', Location)]: ten bytes, four signed and one
    unsigned big-endian 16-bit fields. *)
Definition make_location (data : list Z) : res location :=
  match data with
  | [a0; a1; a2; a3; a4; a5; a6; a7; a8; a9] =>
      Ok (mkLocation (be_s16 a0 a1) (be_s16 a2 a3) (be_s16 a4 a5) (be_s16 a6 a7)
                     (be_u16 a8 a9))
  | _ => Exc StructError
  end.

(** [struct.pack('!H', h)]. *)
Definition pack_H (h : Z) : res (list Z) :=
  if (0 <=? h) && (h <? 65536) then Ok [Z.shiftr h 8; Z.land h 255] else Exc StructError.

(** [SpheroRaw.send_get_version]. *)
Definition send_get_version : M (option (reply version)) :=
  send_msg DID_CORE CMD_VERSIONING None true true None ;;
  recv_msg (Some make_version).

(** [SpheroRaw.send_sleep]: [bytes(5)] is five zero bytes. *)
Definition send_sleep : M unit :=
  send_msg DID_CORE CMD_SLEEP (Some [0; 0; 0; 0; 0]) false true None.

(** [SpheroRaw.send_set_heading(heading)]. *)
Definition send_set_heading (heading : Z) : M unit :=
  data <- raise_res (pack_H (heading mod 360));
  send_msg DID_SPHERO CMD_SET_HEADING (Some data) false true None.

(** [SpheroRaw.send_set_stabilization(enable=True)]. *)
Definition send_set_stabilization (enable : bool) : M unit :=
  data <- raise_res (py_bytes [if enable then 1 else 0]);
  send_msg DID_SPHERO CMD_SET_STABILIZATION (Some data) false true None.

(** [SpheroRaw.send_read_locator]. *)
Definition send_read_locator : M (option (reply location)) :=
  send_msg DID_SPHERO CMD_READ_LOCATOR None true true None ;;
  recv_msg (Some make_location).

(** [SpheroRaw.send_set_backlight(value)]. *)
Definition send_set_backlight (value : Z) : M unit :=
  data <- raise_res (py_bytes [value]);
  send_msg DID_SPHERO CMD_SET_BACKLIGHT (Some data) false true None.

(** [SpheroRaw.send_raw_motor(left_mode, left_power, right_mode, right_power)]. *)
Definition send_raw_motor (left_mode left_power right_mode right_power : Z) : M unit :=
  data <- raise_res (py_bytes [left_mode; left_power; right_mode; right_power]);
  send_msg DID_SPHERO CMD_RAW_MOTOR (Some data) false true None.

(** [SpheroRaw.disconnect]. *)
Definition sphero_disconnect : M unit := on_conn conn_disconnect.

(** ** [Sphero] *)

(** [Sphero.roll(speed, heading, state=1)]. *)
Definition roll (speed : Z) (heading : pyval) (state : Z) : M unit :=
  (fun s => (Ok tt, mkSphero (s_conn s) (seq_n s) (seq_mod s) heading)) ;;
  send_roll speed heading state.

(** [Sphero.off]. *)
Definition off : M unit :=
  s <- get; roll 0 (last_heading s) 0.

(** [Sphero.stop]. *)
Definition stop : M unit :=
  roll 0 (VInt 0) 0 ;; ret tt.

(** [Sphero(addr)]: an unconnected [Connection] with an empty buffer, a
    [BoundCounter()] at 0 modulo 256 and [last_heading = (0, 0, 0)]; the
    device on the other end will answer with [tr]. *)
Definition new_sphero (tr : list (list event)) : sphero :=
  mkSphero (mkConn false [] [] tr [] O) 0 256 (VTuple [0; 0; 0]).

(** [SpheroRaw.connect]: [ok] says whether one of the
    [connect_retries = 10] socket connects succeeds. *)
Definition sphero_connect (ok : bool) : M bool :=
  if ok then on_conn (fun c => (Ok true, set_connected true c)) else ret false.

(** The [while retries > 0] loop of [init_sphero]; called with
    [fuel >= retries], every round lowers [retries] by at least one. *)
Fixpoint clean_loop (fuel retries : nat) (ping_clean : bool) : M bool :=
  match fuel with
  | O => ret ping_clean
  | S f =>
      if (0 <? retries)%nat then
        let retries := (retries - 1)%nat in
        r <- try_response
               (send_ping ;; ret (true, if (1 <? retries)%nat then 1%nat else retries))
               (fun _ => on_conn conn_flush ;; ret (ping_clean, retries));
        clean_loop f (snd r) (fst r)
      else ret ping_clean
  end.

(** [init_sphero(addr)]: the returned session, paired with the final
    [ping_clean], which the source reports through its log. *)
Definition init_sphero (ok : bool) (tr : list (list event)) : res (sphero * bool) * sphero :=
  (connected <- sphero_connect ok;
   if negb connected then raise (RuntimeError "Could not establish connection") else
   ping_clean <- clean_loop 5 5 false;
   s <- get;
   ret (s, ping_clean)) (new_sphero tr).

(** ** The demonstration script [scripts/test.py]

    [time.sleep] only waits; it leaves the session as it is. *)

(** The [colors] of [SpheroPlus.rainbow]. *)
Definition rainbow_colors : list (Z * Z * Z) :=
  [(255, 0, 0); (255, 165, 0); (255, 255, 0); (0, 128, 0); (0, 0, 255);
   (75, 0, 130); (238, 130, 238)].

Fixpoint set_rgb_all (cs : list (Z * Z * Z)) : M unit :=
  match cs with
  | [] => ret tt
  | (r, g, b) :: rest => send_set_rgb r g b false ;; set_rgb_all rest
  end.

(** [SpheroPlus.rainbow(delay=0.15, repeat=1)]: [colors * repeat] is
    empty for [repeat <= 0]. *)
Definition rainbow (rep : Z) : M unit :=
  set_rgb_all (concat (repeat rainbow_colors (Z.to_nat rep))) ;;
  send_set_rgb 0 0 0 false.

(** [SpheroPlus.jump(speed=70, left=255, right=253, d1=0.1, d2=0.2)]:
    [self.roll(speed, 0)] with the default [state=1]. *)
Definition jump (speed left right : Z) : M unit :=
  roll speed (VInt 0) 1 ;;
  send_raw_motor 1 left 1 right ;;
  send_set_stabilization true ;;
  stop.

(** ** Scripted device replies used below *)

(** A ping reply from the device: header [FF FF 00 01 01] and a body made
    of the one trailing byte [chk]. *)
Definition ping_reply (chk : Z) : list event := [Chunk [255; 255; 0; 1; 1; chk]].

(** The reply with the right trailing byte. *)
Definition good_reply : list event := ping_reply (gen_checksum [0; 1; 1]).

(** A connected session over a device that answers with [tr]. *)
Definition connected_sphero (tr : list (list event)) : sphero :=
  snd (sphero_connect true (new_sphero tr)).

(** A connected session whose device has already written [bytes]. *)
Definition incoming (bytes : list Z) : sphero :=
  mkSphero (mkConn true [] [Chunk bytes] [] [] O) 0 256 (VTuple [0; 0; 0]).

(** The frame [send_roll] emits for a speed, a heading in [0, 360) and a
    state. *)
Definition roll_frame (speed heading state : Z) : list Z :=
  [255; 254; 2; 48; 0; 5; speed; Z.shiftr heading 8; Z.land heading 255; state;
   gen_checksum [2; 48; 0; 5; speed; Z.shiftr heading 8; Z.land heading 255; state]].

(** [k] successive calls of [BoundCounter.next]. *)
Fixpoint seq_advance (k : nat) : M unit :=
  match k with
  | O => ret tt
  | S k' => seq_next ;; seq_advance k'
  end.

(** A well-formed reply with the 8-bit length form (second start byte
    [FF]): [b3], [b4], the length [len(content) + 1], the content and the
    checksum [recv_msg] recomputes. *)
Definition reply_frame (b3 b4 : Z) (content : list Z) : list Z :=
  let l := Z.of_nat (length content) + 1 in
  [255; 255; b3; b4; l] ++ content ++ [gen_checksum ([b3; b4; l] ++ content)].

(** A well-formed reply with the 16-bit length form (second start byte
    [FE]): header bytes 4 and 5 carry the length, high byte first. *)
Definition ext_reply_frame (b3 : Z) (content : list Z) : list Z :=
  let l := Z.of_nat (length content) + 1 in
  [255; 254; b3; Z.shiftr l 8; Z.land l 255] ++ content ++
  [gen_checksum ([b3; Z.shiftr l 8; Z.land l 255] ++ content)].

(** What [recv_msg] does with the content of a reply: keep it, or apply
    [make]. *)
Definition decode_content {A} (make : option (list Z -> res A)) (b : list Z)
    : res (content A) :=
  match make with
  | None => Ok (Raw b)
  | Some f => match f b with Ok a => Ok (Made a) | Exc e => Exc e end
  end.

(** A 16-bit field, big-endian, in two's complement for negative values:
    what a device sends for [struct.unpack] to read back. *)
Definition enc16 (v : Z) : list Z := [(v mod 65536) / 256; (v mod 65536) mod 256].

(** The frame [send_set_rgb(r, g, b)] emits. *)
Definition rgb_frame (c : Z * Z * Z) : list Z :=
  let '(r, g, b) := c in
  [255; 254; 2; 32; 0; 5; r; g; b; 0; gen_checksum [2; 32; 0; 5; r; g; b; 0]].

(** ** Checksum *)

Lemma Zlnot_mod256 (x : Z) : Z.lnot x mod 256 = 255 - x mod 256.
Proof.
  rewrite Z.lnot_eq_pred_opp.
  symmetry. apply Z.mod_unique_pos with (- (x / 256) - 1).
  - pose proof (Z.mod_pos_bound x 256). lia.
  - pose proof (Z.div_mod x 256). lia.
Qed.

(** Claim C6: for every sequence of byte values, [gen_checksum] is
    [255 - (sum mod 256)], a value in [0, 255]; it is a total function. *)
Theorem gen_checksum_spec (msg_bytes : list Z) :
  gen_checksum msg_bytes = 255 - fold_right Z.add 0 msg_bytes mod 256 /\
  0 <= gen_checksum msg_bytes <= 255.
Proof.
  unfold gen_checksum. rewrite Zlnot_mod256.
  pose proof (Z.mod_pos_bound (fold_right Z.add 0 msg_bytes) 256). lia.
Qed.

(** ** Encoding *)

(** [send_msg] on a session, written out: what it appends to [sent]. *)
Lemma send_msg_noanswer (s : sphero) (did cid : Z) (data : list Z) :
  connected (s_conn s) = true ->
  py_bytes [255; 254; did; cid; 0; Z.of_nat (length data) + 1] =
    Ok [255; 254; did; cid; 0; Z.of_nat (length data) + 1] ->
  send_msg did cid (Some data) false true None s =
  (Ok tt, mkSphero (mkConn true (buffer (s_conn s))
                           (pending (s_conn s) ++ hd [] (script (s_conn s)))
                           (tl (script (s_conn s)))
                           (sent (s_conn s) ++
                              [[255; 254; did; cid; 0; Z.of_nat (length data) + 1] ++ data ++
                               [gen_checksum ([did; cid; 0; Z.of_nat (length data) + 1] ++ data)]])
                           (drains (s_conn s)))
                   (seq_n s) (seq_mod s) (last_heading s)).
Proof.
  intros Hc Hb.
  unfold send_msg, bind, ret, raise_res, on_conn.
  change (Z.lor 252 2) with 254.
  rewrite Hb.
  assert (Hk : py_bytes [gen_checksum ([did; cid; 0; Z.of_nat (length data) + 1] ++ data)] =
               Ok [gen_checksum ([did; cid; 0; Z.of_nat (length data) + 1] ++ data)]).
  { destruct (gen_checksum_spec ([did; cid; 0; Z.of_nat (length data) + 1] ++ data)) as [_ R].
    revert R. generalize (gen_checksum ([did; cid; 0; Z.of_nat (length data) + 1] ++ data)).
    intros g R. unfold py_bytes. simpl.
    rewrite (proj2 (Z.leb_le 0 g)), (proj2 (Z.ltb_lt g 256)) by lia. reflexivity. }
  rewrite Hk. destruct s as [[cn b p sc se d] n m lh]. simpl in Hc. subst cn.
  reflexivity.
Qed.

(** Claim C1 (as the code has it): on a connected session,
    [send_set_rgb(255, 0, 0, save=False)] with the default flags
    ([answer=False], [reset=True]) sends exactly
    [FF FE 02 20 00 05 FF 00 00 00 D9]: the second start byte carries the
    reset flag [0x02], and [D9] is the checksum over
    [02 20 00 05 FF 00 00 00]. *)
Theorem set_rgb_red_frame (s : sphero) (Hc : connected (s_conn s) = true) :
  exists s', send_set_rgb 255 0 0 false s = (Ok tt, s') /\
    sent (s_conn s') = sent (s_conn s) ++
      [[255; 254; 2; 32; 0; 5; 255; 0; 0; 0; gen_checksum [2; 32; 0; 5; 255; 0; 0; 0]]] /\
    gen_checksum [2; 32; 0; 5; 255; 0; 0; 0] = 217.
Proof.
  unfold send_set_rgb, DID_SPHERO, CMD_SET_RGB, bind at 1. cbn -[send_msg gen_checksum].
  change (Z.of_nat (length [255; 0; 0; 0]) + 1) with 5.
  rewrite (send_msg_noanswer s 2 32 [255; 0; 0; 0] Hc eq_refl).
  eexists. split; [reflexivity | split; reflexivity].
Qed.

(** The claim's frame, with [FC] as second start byte, is not what
    [send_set_rgb(255, 0, 0)] sends. *)
Lemma set_rgb_red_frame_not_FC :
  sent (s_conn (snd (send_set_rgb 255 0 0 false (connected_sphero [])))) <>
  [[255; 252; 2; 32; 0; 5; 255; 0; 0; 0; gen_checksum [2; 32; 0; 5; 255; 0; 0; 0]]].
Proof. vm_compute. congruence. Qed.

Lemma set_rgb_red_frame_witness :
  connected (s_conn (connected_sphero [])) = true /\
  exists s', send_set_rgb 255 0 0 false (connected_sphero []) = (Ok tt, s') /\
    sent (s_conn s') = sent (s_conn (connected_sphero [])) ++
      [[255; 254; 2; 32; 0; 5; 255; 0; 0; 0; gen_checksum [2; 32; 0; 5; 255; 0; 0; 0]]] /\
    gen_checksum [2; 32; 0; 5; 255; 0; 0; 0] = 217.
Proof.
  split; [reflexivity | apply (set_rgb_red_frame (connected_sphero [])); reflexivity].
Defined.

(** ** Roll, power-down and full stop *)

(** Claim C8: on a connected session, [roll(100, 180)] followed by [off]
    sends the roll frame for speed 100, heading 180 and then the roll frame
    for speed 0, heading 180 (state 0); [stop] sends the roll frame for
    speed 0, heading 0 whatever heading was last commanded. *)
Theorem off_keeps_heading_stop_zeroes (s : sphero) (Hc : connected (s_conn s) = true) :
  (exists s', (roll 100 (VInt 180) 1 ;; off) s = (Ok tt, s') /\
     sent (s_conn s') = sent (s_conn s) ++ [roll_frame 100 180 1; roll_frame 0 180 0]) /\
  (exists s', stop s = (Ok tt, s') /\
     sent (s_conn s') = sent (s_conn s) ++ [roll_frame 0 0 0]).
Proof.
  destruct s as [[cn b p sc se d] n m lh]. simpl in Hc. subst cn.
  split; eexists; split; cbn; try reflexivity.
  simpl. rewrite <- app_assoc. reflexivity.
Qed.

Lemma off_keeps_heading_stop_zeroes_witness :
  connected (s_conn (connected_sphero [])) = true /\
  (exists s', (roll 100 (VInt 180) 1 ;; off) (connected_sphero []) = (Ok tt, s') /\
     sent (s_conn s') = sent (s_conn (connected_sphero [])) ++
                          [roll_frame 100 180 1; roll_frame 0 180 0]) /\
  (exists s', stop (connected_sphero []) = (Ok tt, s') /\
     sent (s_conn s') = sent (s_conn (connected_sphero [])) ++ [roll_frame 0 0 0]).
Proof.
  split; [reflexivity | apply (off_keeps_heading_stop_zeroes (connected_sphero [])); reflexivity].
Defined.

(** The heading bytes of these frames. *)
Example roll_frame_off_bytes :
  roll_frame 0 180 0 = [255; 254; 2; 48; 0; 5; 0; 0; 180; 0; 20] /\
  roll_frame 0 0 0 = [255; 254; 2; 48; 0; 5; 0; 0; 0; 0; 200].
Proof. split; reflexivity. Qed.

(** Claim C10: while [last_heading] still holds the tuple [(0, 0, 0)] that
    [Sphero.__init__] stores, [off] raises [TypeError] at [heading % 360]
    in [send_roll], leaving the session as it was and sending nothing. *)
Theorem off_before_roll_raises (s : sphero) (H : last_heading s = VTuple [0; 0; 0]) :
  off s = (Exc TypeError, s) /\ sent (s_conn (snd (off s))) = sent (s_conn s).
Proof.
  destruct s as [c n m lh]. simpl in H. subst lh.
  split; reflexivity.
Qed.

Lemma off_before_roll_raises_witness :
  last_heading (connected_sphero []) = VTuple [0; 0; 0] /\
  off (connected_sphero []) = (Exc TypeError, connected_sphero []) /\
  sent (s_conn (snd (off (connected_sphero [])))) = sent (s_conn (connected_sphero [])).
Proof.
  split; [reflexivity | apply (off_before_roll_raises (connected_sphero [])); reflexivity].
Defined.

(** ** The data-length byte *)

Lemma py_bytes_ok (l a : list Z) : py_bytes l = Ok a -> a = l.
Proof. unfold py_bytes. destruct (forallb _ l); congruence. Qed.

Lemma conn_send_ok (d : list Z) (c c' : conn) (n : Z) :
  conn_send d c = (Ok n, c') -> sent c' = sent c ++ [d].
Proof. unfold conn_send. destruct (negb (connected c)); intros H; inversion H; reflexivity. Qed.

(** Claim C7: whenever [send_msg] sends a frame, its sixth byte, the
    data-length field, is the payload length plus one, whatever [answer],
    [reset] and [seq] are (a missing payload counts as [b'']). *)
Theorem send_msg_dlen (did cid : Z) (data : option (list Z)) (answer reset : bool)
    (seq : option Z) (s s' : sphero)
    (H : send_msg did cid data answer reset seq s = (Ok tt, s')) :
  exists frame, sent (s_conn s') = sent (s_conn s) ++ [frame] /\
    nth_error frame 5 =
      Some (Z.of_nat (length (match data with None => [] | Some d => d end)) + 1).
Proof.
  unfold send_msg, bind, ret, raise_res, raise, on_conn, seq_next, conn_send in H.
  repeat match goal with
         | Hx : context [match ?x with _ => _ end] |- _ => destruct x eqn:?
         end; unfold ret in *; try discriminate;
  repeat match goal with
         | Hx : (_, _) = (_, _) |- _ => injection Hx; clear Hx; intros; subst
         | Hx : py_bytes _ = Ok _ |- _ => apply py_bytes_ok in Hx; subst
         end; try discriminate;
  eexists; (split; [reflexivity | reflexivity]).
Qed.

Lemma send_msg_dlen_witness :
  send_msg 2 48 (Some [1; 2; 3]) true false None (connected_sphero []) =
    (Ok tt, snd (send_msg 2 48 (Some [1; 2; 3]) true false None (connected_sphero []))) /\
  exists frame,
    sent (s_conn (snd (send_msg 2 48 (Some [1; 2; 3]) true false None (connected_sphero [])))) =
      sent (s_conn (connected_sphero [])) ++ [frame] /\
    nth_error frame 5 = Some (Z.of_nat (length [1; 2; 3]) + 1).
Proof.
  split; [reflexivity |].
  apply (send_msg_dlen 2 48 (Some [1; 2; 3]) true false None (connected_sphero [])).
  reflexivity.
Defined.

(** ** Response decoding *)

(** [Connection.read] raises only what [recv] raises or the
    [AttributeError] of [self.error]. *)
Lemma read_loop_exc (fuel : nat) (t : Z) (c c' : conn) (e : exn) :
  read_loop fuel t c = (Exc e, c') -> exn_class e <> ClsResponseError.
Proof.
  revert t c. induction fuel as [|f IH]; intros t c H; simpl in H.
  - discriminate.
  - destruct (t >? 0); [|discriminate].
    unfold sock_recv in H.
    destruct (negb (connected c)); [injection H; intros; subst; discriminate|].
    destruct (pending c) as [|[b|] rest].
    + injection H; intros; subst; discriminate.
    + destruct (firstn (Z.to_nat t) b) as [|x xs].
      * injection H; intros; subst; discriminate.
      * eapply IH. exact H.
    + injection H; intros; subst; discriminate.
Qed.

Lemma conn_read_exc (n : nat) (c c' : conn) (e : exn) :
  conn_read n c = (Exc e, c') -> exn_class e <> ClsResponseError.
Proof.
  unfold conn_read.
  destruct (read_loop _ _ c) as [[u|e'] c1] eqn:E; intros H; [discriminate|].
  injection H; intros; subst. eapply read_loop_exc. exact E.
Qed.

(** On bytes, the source's start-byte test [(sop2 & 0xfe) != 0xfe] rejects
    exactly the values other than [0xFE] and [0xFF]. *)
Lemma land_254_bytes :
  forallb (fun x => Bool.eqb (Z.land x 254 =? 254) ((x =? 254) || (x =? 255)))
          (map Z.of_nat (seq 0 256)) = true.
Proof. vm_compute. reflexivity. Qed.

Lemma land_254 (x : Z) : 0 <= x < 256 ->
  (Z.land x 254 =? 254) = ((x =? 254) || (x =? 255)).
Proof.
  intros Hx. pose proof land_254_bytes as Hall.
  rewrite forallb_forall in Hall.
  specialize (Hall x). apply Bool.eqb_prop, Hall, in_map_iff.
  exists (Z.to_nat x). split; [lia|]. apply in_seq. lia.
Qed.

(** Claim C2 (as the code has it): once [read(5)] has returned the header
    [b1 .. b5], [recv_msg] fails with the framing error
    ['Invalid SOP: ...'] exactly when [b1] is not [0xFF] or [b2] is
    neither [0xFE] nor [0xFF]: the test is [(sop2 & 0xfe) != 0xfe], which
    asks for bits 1 to 7 of [b2], not for its two low-order bits. *)
Theorem recv_msg_framing_iff (s : sphero) (c1 : conn) (b1 b2 b3 b4 b5 : Z)
    (Hr : conn_read 5 (s_conn s) = (Ok [b1; b2; b3; b4; b5], c1))
    (Hb2 : 0 <= b2 < 256) :
  (exists s', @recv_msg unit None s = (Exc (ResponseError (MsgInvalidSOP b1 b2)), s')) <->
  (b1 <> 255 \/ (b2 <> 254 /\ b2 <> 255)).
Proof.
  unfold recv_msg. unfold bind at 1. unfold on_conn at 1. rewrite Hr.
  rewrite (land_254 b2 Hb2).
  destruct (b1 =? 255) eqn:E1; destruct (b2 =? 254) eqn:E2; destruct (b2 =? 255) eqn:E3;
    rewrite ?Z.eqb_eq, ?Z.eqb_neq in E1, E2, E3; cbn [negb orb].
  all: try (split; [intros _; lia | intros _; eexists; reflexivity]).
  all: split; [intros [s' Hs] | lia]; exfalso.
  all: match type of Hs with
       | context [if ?d <? 1 then _ else _] => destruct (d <? 1)
       end; [unfold raise in Hs; congruence |].
  all: unfold bind at 1, on_conn at 1 in Hs.
  all: match type of Hs with
       | context [conn_read ?n ?c] => destruct (conn_read n c) as [[body|e] c2] eqn:Hb
       end.
  all: try (injection Hs; intros; subst; eapply conn_read_exc; [exact Hb | reflexivity]).
  all: destruct body as [|x xs];
       [unfold bind, on_conn, conn_disconnect, ret in Hs;
        cbn in Hs; destruct (negb (connected c2)); cbn in Hs; discriminate |].
  all: match type of Hs with
       | context [if ?t then _ else _] => destruct t
       end; unfold bind, ret, raise in Hs; congruence.
Qed.

Lemma recv_msg_framing_iff_witness :
  conn_read 5 (s_conn (incoming [255; 3; 0; 0; 1])) =
    (Ok [255; 3; 0; 0; 1], snd (conn_read 5 (s_conn (incoming [255; 3; 0; 0; 1])))) /\
  0 <= 3 < 256 /\
  ((exists s', @recv_msg unit None (incoming [255; 3; 0; 0; 1]) =
               (Exc (ResponseError (MsgInvalidSOP 255 3)), s')) <->
   (255 <> 255 \/ (3 <> 254 /\ 3 <> 255))).
Proof.
  split; [reflexivity | split; [lia |]].
  apply (recv_msg_framing_iff (incoming [255; 3; 0; 0; 1])
           (snd (conn_read 5 (s_conn (incoming [255; 3; 0; 0; 1])))) 255 3 0 0 1).
  - reflexivity.
  - lia.
Defined.

(** The claim's test (first byte [0xFF], both low-order bits of the second
    set) admits the header [FF 03 00 00 01], which [recv_msg] rejects as
    badly framed. *)
Lemma recv_msg_low_bits_rejected :
  Z.land 3 3 = 3 /\
  fst (@recv_msg unit None (incoming [255; 3; 0; 0; 1; 0])) =
    Exc (ResponseError (MsgInvalidSOP 255 3)).
Proof. split; reflexivity. Qed.

(** Claim C5 (as the code has it): after a well-framed header and a body
    of the announced length, a trailing byte that differs from the checksum
    recomputed over header bytes 3 to 5 and the content makes [recv_msg]
    raise [ResponseError('Invalid checksum')]: the same exception class as
    the framing and body-length errors, which differ from it only in their
    message. *)
Theorem recv_msg_checksum_error (s : sphero) (c1 c2 : conn) (b1 b2 b3 b4 b5 : Z)
    (body : list Z)
    (Hr : conn_read 5 (s_conn s) = (Ok [b1; b2; b3; b4; b5], c1))
    (Hsop : b1 = 255 /\ (b2 = 254 \/ b2 = 255))
    (Hlen : 1 <= (if b2 =? 254 then Z.lor b5 (Z.shiftl b4 8) else b5))
    (Hb : conn_read (Z.to_nat (if b2 =? 254 then Z.lor b5 (Z.shiftl b4 8) else b5)) c1 =
          (Ok body, c2))
    (Hne : body <> [])
    (Hchk : gen_checksum ([b3; b4; b5] ++ removelast body) <> last body 0) :
  fst (@recv_msg unit None s) = Exc (ResponseError MsgInvalidChecksum) /\
  (forall sop1 sop2 dlen,
     exn_class (ResponseError MsgInvalidChecksum) =
       exn_class (ResponseError (MsgInvalidSOP sop1 sop2)) /\
     exn_class (ResponseError MsgInvalidChecksum) =
       exn_class (ResponseError (MsgInvalidBodyLength dlen)) /\
     MsgInvalidChecksum <> MsgInvalidSOP sop1 sop2 /\
     MsgInvalidChecksum <> MsgInvalidBodyLength dlen).
Proof.
  split; [| intros; repeat split; discriminate].
  unfold recv_msg. unfold bind at 1. unfold on_conn at 1. rewrite Hr.
  destruct Hsop as [-> Hb2].
  replace (negb (255 =? 255) || negb (Z.land b2 254 =? 254)) with false
    by (destruct Hb2 as [-> | ->]; reflexivity).
  revert Hlen Hb.
  generalize (if b2 =? 254 then Z.lor b5 (Z.shiftl b4 8) else b5). intros dlen Hlen Hb.
  replace (dlen <? 1) with false by (symmetry; apply Z.ltb_ge; lia).
  unfold bind at 1, on_conn at 1. cbn [s_conn]. rewrite Hb.
  destruct body as [|x xs]; [congruence |].
  apply Z.eqb_neq in Hchk. rewrite Hchk. reflexivity.
Qed.

Lemma recv_msg_checksum_error_witness :
  fst (@recv_msg unit None (incoming [255; 255; 0; 1; 1; 0])) =
    Exc (ResponseError MsgInvalidChecksum).
Proof.
  apply (recv_msg_checksum_error (incoming [255; 255; 0; 1; 1; 0])
           (snd (conn_read 5 (s_conn (incoming [255; 255; 0; 1; 1; 0]))))
           (snd (conn_read 1 (snd (conn_read 5 (s_conn (incoming [255; 255; 0; 1; 1; 0]))))))
           255 255 0 1 1 [0]).
  - reflexivity.
  - lia.
  - cbn. lia.
  - reflexivity.
  - discriminate.
  - cbn. discriminate.
Defined.

(** The checksum, framing and body-length failures of [recv_msg] are all
    one exception class, [ResponseError]. *)
Lemma decode_errors_one_class :
  fst (@recv_msg unit None (incoming [255; 255; 0; 1; 1; 0])) =
    Exc (ResponseError MsgInvalidChecksum) /\
  fst (@recv_msg unit None (incoming [0; 255; 0; 1; 1; 0])) =
    Exc (ResponseError (MsgInvalidSOP 0 255)) /\
  fst (@recv_msg unit None (incoming [255; 255; 0; 1; 0])) =
    Exc (ResponseError (MsgInvalidBodyLength 0)) /\
  exn_class (ResponseError MsgInvalidChecksum) =
    exn_class (ResponseError (MsgInvalidSOP 0 255)) /\
  exn_class (ResponseError MsgInvalidChecksum) =
    exn_class (ResponseError (MsgInvalidBodyLength 0)).
Proof. repeat split. Qed.

(** ** Reading from a closing stream *)

(** Claim C4, as the code behaves: with an empty buffer, when the device
    delivers [k < n] bytes and closes, [read(n)] keeps the [k] bytes in
    [_buffer] and then fails, not with a connection-closed signal but with
    the [AttributeError] of the call [self.error('Connection closed')] on a
    [Connection], which has no [error] attribute. *)
Theorem read_closed_attribute_error (n : nat) (delivered : list Z) (c : conn)
    (Hc : connected c = true) (Hbuf : buffer c = [])
    (Hp : pending c = [Chunk delivered]) (Hk : (length delivered < n)%nat) :
  conn_read n c = (Exc (AttributeError "error"), set_pending [] (set_buffer delivered c)).
Proof.
  destruct c as [cn b p sc se d]. simpl in Hc, Hbuf, Hp. subst cn b p.
  unfold conn_read. cbn [buffer length].
  replace (Z.of_nat n - Z.of_nat 0) with (Z.of_nat n) by lia.
  rewrite Nat2Z.id.
  destruct n as [|m]; [lia |].
  cbn [read_loop]. replace (Z.of_nat (S m) >? 0) with true by (symmetry; apply Z.gtb_lt; lia).
  unfold sock_recv. cbn [connected negb pending].
  rewrite Nat2Z.id, firstn_all2, skipn_all2 by lia.
  destruct delivered as [|x xs]; [reflexivity |].
  destruct m as [|m']; [simpl in Hk; lia |].
  cbn [read_loop].
  replace (Z.of_nat (S (S m')) - Z.of_nat (length (x :: xs)) >? 0) with true
    by (symmetry; apply Z.gtb_lt; lia).
  reflexivity.
Qed.

Lemma read_closed_attribute_error_witness :
  connected (mkConn true [] [Chunk [1; 2]] [] [] O) = true /\
  buffer (mkConn true [] [Chunk [1; 2]] [] [] O) = [] /\
  pending (mkConn true [] [Chunk [1; 2]] [] [] O) = [Chunk [1; 2]] /\
  (length [1; 2] < 5)%nat /\
  conn_read 5 (mkConn true [] [Chunk [1; 2]] [] [] O) =
    (Exc (AttributeError "error"),
     set_pending [] (set_buffer [1; 2] (mkConn true [] [Chunk [1; 2]] [] [] O))).
Proof.
  split; [reflexivity | split; [reflexivity | split; [reflexivity | split; [cbn; lia |]]]].
  apply read_closed_attribute_error; try reflexivity. cbn. lia.
Defined.

(** ** Channel cleaning *)

(** Claim C3, as the code behaves: when the first ping reply has a wrong
    trailing byte and the next two are valid, [init_sphero] ends with the
    channel clean after three pings (the failed one, the valid one and the
    confirmatory one the loop allows after a success) and one drain. *)
Theorem clean_after_three_pings (c : Z) (Hc : c <> gen_checksum [0; 1; 1]) :
  exists s, init_sphero true [ping_reply c; good_reply; good_reply] = (Ok (s, true), s) /\
    length (sent (s_conn s)) = 3%nat /\ drains (s_conn s) = 1%nat.
Proof.
  change (gen_checksum [0; 1; 1]) with 253 in Hc.
  unfold init_sphero, clean_loop, send_ping, send_msg, recv_msg, bind, ret, raise,
    on_conn, try_response, get, seq_next, sphero_connect, raise_res.
  simpl.
  replace (match c with Z.pos q => (253 =? q)%positive | _ => false end) with false
    by (symmetry; exact (proj2 (Z.eqb_neq 253 c) (not_eq_sym Hc))).
  vm_compute. eexists; split; [reflexivity | split; reflexivity].
Qed.

Lemma clean_after_three_pings_witness :
  0 <> gen_checksum [0; 1; 1] /\
  exists s, init_sphero true [ping_reply 0; good_reply; good_reply] = (Ok (s, true), s) /\
    length (sent (s_conn s)) = 3%nat /\ drains (s_conn s) = 1%nat.
Proof.
  split; [discriminate | apply (clean_after_three_pings 0); discriminate].
Defined.

(** With a corrupted first reply and a valid second one, the cleaning does
    not stop after two pings. *)
Lemma clean_not_after_two_pings :
  ~ (exists s, init_sphero true [ping_reply 0; good_reply; good_reply] = (Ok (s, true), s) /\
       length (sent (s_conn s)) = 2%nat /\ drains (s_conn s) = 1%nat).
Proof.
  intros [s [H [L _]]].
  assert (E : length (sent (s_conn (snd (init_sphero true
                [ping_reply 0; good_reply; good_reply])))) = 3%nat) by reflexivity.
  rewrite H in E. simpl in E. congruence.
Qed.




(** * Further properties of the module *)

(** ** [BoundCounter] *)

Lemma seq_advance_S (k : nat) (s : sphero) :
  seq_advance (S k) s =
  seq_advance k (mkSphero (s_conn s) ((seq_n s + 1) mod seq_mod s) (seq_mod s) (last_heading s)).
Proof. reflexivity. Qed.

(** [k] calls of [BoundCounter.next] from a value in [0, mod) leave
    [(n + k) mod mod]; after [mod] calls the counter is back where it
    started, and nothing else of the session changes. *)
Theorem seq_advance_mod (k : nat) (s : sphero)
    (Hm : 0 < seq_mod s) (Hn : 0 <= seq_n s < seq_mod s) :
  seq_n (snd (seq_advance k s)) = (seq_n s + Z.of_nat k) mod seq_mod s /\
  seq_n (snd (seq_advance (Z.to_nat (seq_mod s)) s)) = seq_n s /\
  s_conn (snd (seq_advance k s)) = s_conn s.
Proof.
  assert (Gen : forall k s, 0 < seq_mod s -> 0 <= seq_n s < seq_mod s ->
            seq_n (snd (seq_advance k s)) = (seq_n s + Z.of_nat k) mod seq_mod s /\
            seq_mod (snd (seq_advance k s)) = seq_mod s /\
            s_conn (snd (seq_advance k s)) = s_conn s).
  { clear. induction k as [|k IH]; intros s Hm Hn.
    - simpl. rewrite Z.add_0_r, Z.mod_small by lia. auto.
    - rewrite seq_advance_S.
      destruct (IH (mkSphero (s_conn s) ((seq_n s + 1) mod seq_mod s) (seq_mod s)
                             (last_heading s))) as [E1 [E2 E3]]; simpl.
      + exact Hm.
      + apply Z.mod_pos_bound. exact Hm.
      + rewrite E1, E2, E3. repeat split.
        cbn [seq_n seq_mod]. rewrite Zplus_mod_idemp_l. f_equal. lia. }
  destruct (Gen k s Hm Hn) as [E1 [_ E3]].
  destruct (Gen (Z.to_nat (seq_mod s)) s Hm Hn) as [F1 _].
  repeat split; auto.
  rewrite F1, Z2Nat.id by lia.
  rewrite <- Zplus_mod_idemp_r, Z_mod_same_full, Z.add_0_r. apply Z.mod_small. lia.
Qed.

Lemma seq_advance_mod_witness :
  0 < seq_mod (connected_sphero []) /\ 0 <= seq_n (connected_sphero []) < seq_mod (connected_sphero []) /\
  seq_n (snd (seq_advance 300 (connected_sphero []))) =
    (seq_n (connected_sphero []) + Z.of_nat 300) mod seq_mod (connected_sphero []) /\
  seq_n (snd (seq_advance (Z.to_nat (seq_mod (connected_sphero []))) (connected_sphero []))) =
    seq_n (connected_sphero []) /\
  s_conn (snd (seq_advance 300 (connected_sphero []))) = s_conn (connected_sphero []).
Proof.
  split; [reflexivity | split; [cbn; lia |]].
  apply (seq_advance_mod 300 (connected_sphero [])); [reflexivity | cbn; lia].
Defined.

(** ** [Connection.flush] *)


(** ** Connecting *)


(** ** Frames sent by [send_msg] *)

Lemma send_msg_frame (did cid : Z) (data : option (list Z)) (answer reset : bool)
    (seq : option Z) (s s' : sphero)
    (H : send_msg did cid data answer reset seq s = (Ok tt, s')) :
  let d := match data with None => [] | Some d => d end in
  exists sop2 sq, sent (s_conn s') = sent (s_conn s) ++
    [[255; sop2; did; cid; sq; Z.of_nat (length d) + 1] ++ d ++
     [gen_checksum ([did; cid; sq; Z.of_nat (length d) + 1] ++ d)]].
Proof.
  unfold send_msg, bind, ret, raise_res, raise, on_conn, seq_next, conn_send in H.
  repeat match goal with
         | Hx : context [match ?x with _ => _ end] |- _ => destruct x eqn:?
         end; unfold ret in *; try discriminate;
  repeat match goal with
         | Hx : (_, _) = (_, _) |- _ => injection Hx; clear Hx; intros; subst
         | Hx : py_bytes _ = Ok _ |- _ => apply py_bytes_ok in Hx; subst
         end; try discriminate;
  do 2 eexists; reflexivity.
Qed.

Lemma sum_app (l1 l2 : list Z) :
  fold_right Z.add 0 (l1 ++ l2) = fold_right Z.add 0 l1 + fold_right Z.add 0 l2.
Proof. induction l1 as [|x l1 IH]; simpl; [reflexivity | rewrite IH; lia]. Qed.

(** Every frame [send_msg] sends checks out: the bytes after the two
    start bytes (device id, command id, sequence, length, payload and
    checksum) add up to [255] modulo 256. *)
Theorem send_msg_frame_checks (did cid : Z) (data : option (list Z)) (answer reset : bool)
    (seq : option Z) (s s' : sphero)
    (H : send_msg did cid data answer reset seq s = (Ok tt, s')) :
  exists frame, sent (s_conn s') = sent (s_conn s) ++ [frame] /\
    fold_right Z.add 0 (skipn 2 frame) mod 256 = 255.
Proof.
  destruct (send_msg_frame did cid data answer reset seq s s' H) as [sop2 [sq E]].
  eexists; split; [exact E |].
  set (d := match data with None => [] | Some d => d end).
  set (body := [did; cid; sq; Z.of_nat (length d) + 1] ++ d).
  replace (skipn 2 _) with (body ++ [gen_checksum body]) by (subst body; reflexivity).
  rewrite sum_app. destruct (gen_checksum_spec body) as [G _].
  change (fold_right Z.add 0 [gen_checksum body]) with (gen_checksum body + 0).
  rewrite G, Z.add_0_r.
  pose proof (Z.div_mod (fold_right Z.add 0 body) 256).
  pose proof (Z.mod_pos_bound (fold_right Z.add 0 body) 256).
  replace (fold_right Z.add 0 body + (255 - fold_right Z.add 0 body mod 256))
    with (255 + (fold_right Z.add 0 body / 256) * 256) by lia.
  rewrite Z_mod_plus_full. reflexivity.
Qed.

Lemma send_msg_frame_checks_witness :
  send_msg 2 48 (Some [1; 2; 3]) true false None (connected_sphero []) =
    (Ok tt, snd (send_msg 2 48 (Some [1; 2; 3]) true false None (connected_sphero []))) /\
  exists frame,
    sent (s_conn (snd (send_msg 2 48 (Some [1; 2; 3]) true false None (connected_sphero [])))) =
      sent (s_conn (connected_sphero [])) ++ [frame] /\
    fold_right Z.add 0 (skipn 2 frame) mod 256 = 255.
Proof.
  split; [reflexivity |].
  apply (send_msg_frame_checks 2 48 (Some [1; 2; 3]) true false None (connected_sphero [])).
  reflexivity.
Defined.



(** ** Acknowledged commands and the sequence counter *)

Lemma py_bytes_range (l : list Z) :
  Forall (fun x => 0 <= x < 256) l -> py_bytes l = Ok l.
Proof.
  intros H. unfold py_bytes.
  replace (forallb _ l) with true; [reflexivity |].
  symmetry. apply forallb_forall. intros x Hx.
  rewrite Forall_forall in H. specialize (H x Hx).
  apply andb_true_iff. split; [apply Z.leb_le | apply Z.ltb_lt]; lia.
Qed.

Lemma gen_checksum_byte (l : list Z) : 0 <= gen_checksum l < 256.
Proof. destruct (gen_checksum_spec l) as [_ R]. lia. Qed.

(** [send_msg] with [answer=True], no payload and no explicit [seq],
    written out. *)
Lemma send_msg_answer_none (s : sphero) (did cid : Z)
    (Hm : seq_mod s = 256) (Hn : 0 <= seq_n s < 256)
    (Hd : 0 <= did < 256) (Hi : 0 <= cid < 256) :
  let q := (seq_n s + 1) mod 256 in
  let c := s_conn s in
  send_msg did cid None true true None s =
  if connected c then
    (Ok tt, mkSphero (mkConn true (buffer c) (pending c ++ hd [] (script c)) (tl (script c))
                             (sent c ++ [[255; 255; did; cid; q; 1; gen_checksum [did; cid; q; 1]]])
                             (drains c))
                     q 256 (last_heading s))
  else (Exc (RuntimeError "Not connected"), mkSphero c q 256 (last_heading s)).
Proof.
  destruct s as [c n m lh]. simpl in Hm, Hn |- *. subst m.
  unfold send_msg, bind, ret, raise_res, raise, on_conn, seq_next. cbn [seq_n seq_mod s_conn].
  change (Z.lor (Z.lor 252 2) 1) with 255.
  assert (Hq : 0 <= (n + 1) mod 256 < 256) by (apply Z.mod_pos_bound; lia).
  rewrite (py_bytes_range [255; 255; did; cid; (n + 1) mod 256; Z.of_nat (length (@nil Z)) + 1])
    by (repeat constructor; simpl; lia).
  rewrite (py_bytes_range [gen_checksum ([did; cid; (n + 1) mod 256;
                                          Z.of_nat (length (@nil Z)) + 1] ++ [])])
    by (repeat constructor; apply gen_checksum_byte).
  unfold ret. cbn [last_heading s_conn seq_n seq_mod app length Z.of_nat]. unfold conn_send.
  destruct (connected c); reflexivity.
Qed.

(** An acknowledged command without payload (ping, version query,
    locator read) advances the counter to [(n + 1) mod 256] and sends that
    value as the frame's sequence byte, with both flags set in the second
    start byte. *)
Theorem send_msg_answer_seq (s : sphero) (did cid : Z)
    (Hc : connected (s_conn s) = true) (Hm : seq_mod s = 256) (Hn : 0 <= seq_n s < 256)
    (Hd : 0 <= did < 256) (Hi : 0 <= cid < 256) :
  exists s', send_msg did cid None true true None s = (Ok tt, s') /\
    seq_n s' = (seq_n s + 1) mod 256 /\
    sent (s_conn s') = sent (s_conn s) ++
      [[255; 255; did; cid; (seq_n s + 1) mod 256; 1;
        gen_checksum [did; cid; (seq_n s + 1) mod 256; 1]]].
Proof.
  rewrite (send_msg_answer_none s did cid Hm Hn Hd Hi). cbv zeta. rewrite Hc.
  eexists; repeat split.
Qed.

Lemma send_msg_answer_seq_witness :
  connected (s_conn (connected_sphero [])) = true /\ seq_mod (connected_sphero []) = 256 /\
  0 <= seq_n (connected_sphero []) < 256 /\ 0 <= 0 < 256 /\ 0 <= 1 < 256 /\
  exists s', send_msg 0 1 None true true None (connected_sphero []) = (Ok tt, s') /\
    seq_n s' = (seq_n (connected_sphero []) + 1) mod 256 /\
    sent (s_conn s') = sent (s_conn (connected_sphero [])) ++
      [[255; 255; 0; 1; (seq_n (connected_sphero []) + 1) mod 256; 1;
        gen_checksum [0; 1; (seq_n (connected_sphero []) + 1) mod 256; 1]]].
Proof.
  do 2 (split; [reflexivity |]). do 3 (split; [cbn; lia |]).
  apply send_msg_answer_seq; first [reflexivity | cbn; lia].
Defined.

(** Once the session is disconnected, a second [disconnect] raises
    [RuntimeError('Not connected')], and so does [send_ping], without
    sending a frame but after the counter has already moved on. *)
Theorem disconnected_session (s : sphero)
    (Hc : connected (s_conn s) = true) (Hm : seq_mod s = 256) (Hn : 0 <= seq_n s < 256) :
  let s1 := snd (sphero_disconnect s) in
  fst (sphero_disconnect s) = Ok tt /\
  fst (sphero_disconnect s1) = Exc (RuntimeError "Not connected") /\
  fst (send_ping s1) = Exc (RuntimeError "Not connected") /\
  sent (s_conn (snd (send_ping s1))) = sent (s_conn s) /\
  seq_n (snd (send_ping s1)) = (seq_n s + 1) mod 256.
Proof.
  destruct s as [c n m lh]. simpl in Hc, Hm, Hn. subst m.
  unfold sphero_disconnect, on_conn, conn_disconnect. cbn [s_conn]. rewrite Hc. cbn.
  unfold send_ping, bind.
  rewrite send_msg_answer_none by (unfold DID_CORE, CMD_PING; cbn; lia). cbn.
  repeat split.
Qed.

Lemma disconnected_session_witness :
  connected (s_conn (connected_sphero [])) = true /\ seq_mod (connected_sphero []) = 256 /\
  0 <= seq_n (connected_sphero []) < 256 /\
  fst (send_ping (snd (sphero_disconnect (connected_sphero [])))) =
    Exc (RuntimeError "Not connected").
Proof.
  do 2 (split; [reflexivity |]). split; [cbn; lia |].
  apply (disconnected_session (connected_sphero [])); first [reflexivity | cbn; lia].
Defined.

(** ** Reading whole replies *)

(** [Connection.read(n)] with an empty buffer, when the next chunk holds at
    least [n] bytes: one [recv] call, whose leftover stays pending. *)
Lemma conn_read_chunk (n : nat) (c : conn) (b : list Z) (rest : list event)
    (Hc : connected c = true) (Hb : buffer c = []) (Hp : pending c = Chunk b :: rest)
    (Hn : (0 < n <= length b)%nat) :
  conn_read n c =
  (Ok (firstn n b),
   mkConn true [] (if (length b <=? n)%nat then rest else Chunk (skipn n b) :: rest)
          (script c) (sent c) (drains c)).
Proof.
  destruct c as [cn bf p sc se d]. cbn in Hc, Hb, Hp. subst cn bf p.
  unfold conn_read. cbn [buffer length].
  replace (Z.of_nat n - Z.of_nat 0) with (Z.of_nat n) by lia.
  rewrite Nat2Z.id.
  destruct n as [|n']; [lia |].
  destruct b as [|x b']; [cbn in Hn; lia |].
  cbn [read_loop]. replace (Z.of_nat (S n') >? 0) with true by (symmetry; apply Z.gtb_lt; lia).
  unfold sock_recv. cbn [connected negb pending]. rewrite Nat2Z.id.
  cbn [firstn].
  assert (Hlen : length (firstn n' b') = n') by (apply firstn_length_le; cbn in Hn; lia).
  cbn [length]. rewrite Hlen.
  replace (Z.of_nat (S n') - Z.of_nat (S n')) with 0 by lia.
  cbn.
  rewrite firstn_firstn, Nat.min_id, skipn_firstn_comm, Nat.sub_diag. cbn [firstn skipn].
  f_equal. f_equal.
  cbn in Hn. destruct (Nat.leb_spec (length b') n') as [Hle | Hgt].
  - replace (skipn n' b') with (@nil Z); [reflexivity |].
    symmetry. apply length_zero_iff_nil. rewrite length_skipn. lia.
  - destruct (skipn n' b') eqn:E; [| reflexivity].
    apply (f_equal (@length Z)) in E. rewrite length_skipn in E. cbn in E. lia.
Qed.

Lemma removelast_last_app (l : list Z) (a : Z) :
  removelast (l ++ [a]) = l /\ last (l ++ [a]) 0 = a.
Proof. split; [apply removelast_last | apply last_last]. Qed.

(** [recv_msg] on a well-formed reply with the 8-bit length form, written
    out. *)
Lemma recv_msg_reply_frame {A} (make : option (list Z -> res A)) (s : sphero)
    (b3 b4 : Z) (content : list Z) (rest : list event)
    (Hc : connected (s_conn s) = true) (Hb : buffer (s_conn s) = [])
    (Hp : pending (s_conn s) = Chunk (reply_frame b3 b4 content) :: rest)
    (Hl : (length content < 255)%nat) :
  let l := Z.of_nat (length content) + 1 in
  let chk := gen_checksum ([b3; b4; l] ++ content) in
  let c := s_conn s in
  recv_msg make s =
  (match decode_content make content with
   | Ok v => Ok (Some (255, b3, b4, l, chk, v, chk))
   | Exc e => Exc e
   end,
   mkSphero (mkConn true [] rest (script c) (sent c) (drains c))
            (seq_n s) (seq_mod s) (last_heading s)).
Proof.
  destruct s as [c n m lh]. cbn [s_conn] in Hc, Hb, Hp |- *. cbv zeta.
  set (l := Z.of_nat (length content) + 1).
  set (chk := gen_checksum ([b3; b4; l] ++ content)).
  assert (Hlen : length (reply_frame b3 b4 content) = (length content + 6)%nat).
  { unfold reply_frame. rewrite !length_app. cbn. lia. }
  unfold recv_msg, bind at 1, on_conn at 1. cbn [s_conn].
  rewrite (conn_read_chunk 5 c (reply_frame b3 b4 content) rest Hc Hb Hp) by lia.
  replace (length (reply_frame b3 b4 content) <=? 5)%nat with false
    by (symmetry; apply Nat.leb_gt; lia).
  unfold reply_frame. fold l. fold chk.
  cbn [firstn skipn app seq_n seq_mod last_heading].
  change (Z.land 255 254) with 254. cbn [Z.eqb negb orb Pos.eqb].
  replace (l <? 1) with false by (symmetry; apply Z.ltb_ge; unfold l; lia).
  unfold bind at 1, on_conn at 1. cbn [s_conn seq_n seq_mod last_heading].
  replace (Z.to_nat l) with (length (content ++ [chk]))
    by (unfold l; rewrite length_app; cbn; lia).
  rewrite (conn_read_chunk (length (content ++ [chk])) _ (content ++ [chk]) rest)
    by (cbn; first [reflexivity | rewrite length_app; cbn; lia]).
  rewrite Nat.leb_refl, firstn_all.
  destruct (removelast_last_app content chk) as [R1 R2]. rewrite R1, R2.
  destruct (content ++ [chk]) eqn:E; [symmetry in E; apply app_cons_not_nil in E; contradiction |].
  rewrite Z.eqb_refl.
  destruct make as [f |]; cbn; [| reflexivity].
  destruct (f content); reflexivity.
Qed.

(** A well-formed reply in the 8-bit length form is decoded into its
    fields: start byte [FF], [b3], [b4], the length, the checksum twice
    and the content (kept as bytes, or passed through [make], whose
    exception propagates); the frame is consumed and the rest of the
    input stays pending. *)
Theorem recv_msg_round_trip {A} (make : option (list Z -> res A)) (s : sphero)
    (b3 b4 : Z) (content : list Z) (rest : list event)
    (Hc : connected (s_conn s) = true) (Hb : buffer (s_conn s) = [])
    (Hp : pending (s_conn s) = Chunk (reply_frame b3 b4 content) :: rest)
    (Hl : (length content < 255)%nat) :
  let l := Z.of_nat (length content) + 1 in
  let chk := gen_checksum ([b3; b4; l] ++ content) in
  fst (recv_msg make s) =
    match decode_content make content with
    | Ok v => Ok (Some (255, b3, b4, l, chk, v, chk))
    | Exc e => Exc e
    end /\
  pending (s_conn (snd (recv_msg make s))) = rest /\
  buffer (s_conn (snd (recv_msg make s))) = [] /\
  connected (s_conn (snd (recv_msg make s))) = true.
Proof.
  rewrite (recv_msg_reply_frame make s b3 b4 content rest Hc Hb Hp Hl).
  cbn. repeat split.
Qed.

Lemma recv_msg_round_trip_witness :
  let s := incoming (reply_frame 0 1 [7; 8; 9]) in
  connected (s_conn s) = true /\ buffer (s_conn s) = [] /\
  pending (s_conn s) = Chunk (reply_frame 0 1 [7; 8; 9]) :: [] /\
  (length [7; 8; 9] < 255)%nat /\
  fst (recv_msg (@None (list Z -> res unit)) s) =
    Ok (Some (255, 0, 1, 4, gen_checksum [0; 1; 4; 7; 8; 9], Raw [7; 8; 9],
              gen_checksum [0; 1; 4; 7; 8; 9])).
Proof.
  cbv zeta. do 3 (split; [reflexivity |]). split; [cbn; lia |].
  apply (recv_msg_round_trip None (incoming (reply_frame 0 1 [7; 8; 9])) 0 1 [7; 8; 9] []);
    first [reflexivity | cbn; lia].
Defined.

Lemma lor_land_shift (x : Z) :
  0 <= x -> Z.lor (Z.land x 255) (Z.shiftl (Z.shiftr x 8) 8) = x.
Proof.
  intros H. apply Z.bits_inj'. intros i Hi.
  rewrite Z.lor_spec, Z.land_spec. change 255 with (Z.ones 8).
  destruct (Z.lt_ge_cases i 8) as [Lo | Hi8].
  - rewrite Z.ones_spec_low, Z.shiftl_spec_low by lia.
    rewrite andb_true_r, orb_false_r. reflexivity.
  - rewrite Z.ones_spec_high, Z.shiftl_spec_high, Z.shiftr_spec by lia.
    rewrite andb_false_r. cbn. f_equal. lia.
Qed.

(** [recv_msg] on a well-formed reply with the 16-bit length form,
    written out. *)
Lemma recv_msg_ext_reply_frame {A} (make : option (list Z -> res A)) (s : sphero)
    (b3 : Z) (content : list Z) (rest : list event)
    (Hc : connected (s_conn s) = true) (Hb : buffer (s_conn s) = [])
    (Hp : pending (s_conn s) = Chunk (ext_reply_frame b3 content) :: rest)
    (Hl : Z.of_nat (length content) < 65535) :
  let l := Z.of_nat (length content) + 1 in
  let chk := gen_checksum ([b3; Z.shiftr l 8; Z.land l 255] ++ content) in
  let c := s_conn s in
  recv_msg make s =
  (match decode_content make content with
   | Ok v => Ok (Some (254, b3, Z.shiftr l 8, Z.land l 255, chk, v, chk))
   | Exc e => Exc e
   end,
   mkSphero (mkConn true [] rest (script c) (sent c) (drains c))
            (seq_n s) (seq_mod s) (last_heading s)).
Proof.
  destruct s as [c n m lh]. cbn [s_conn] in Hc, Hb, Hp |- *. cbv zeta.
  set (l := Z.of_nat (length content) + 1).
  set (chk := gen_checksum ([b3; Z.shiftr l 8; Z.land l 255] ++ content)).
  assert (Hlen : length (ext_reply_frame b3 content) = (length content + 6)%nat).
  { unfold ext_reply_frame. rewrite !length_app. cbn. lia. }
  unfold recv_msg, bind at 1, on_conn at 1. cbn [s_conn].
  rewrite (conn_read_chunk 5 c (ext_reply_frame b3 content) rest Hc Hb Hp) by lia.
  replace (length (ext_reply_frame b3 content) <=? 5)%nat with false
    by (symmetry; apply Nat.leb_gt; lia).
  unfold ext_reply_frame. fold l. fold chk.
  cbn [firstn skipn app seq_n seq_mod last_heading].
  change (Z.land 254 254) with 254. cbn [Z.eqb negb orb Pos.eqb].
  rewrite (lor_land_shift l) by (unfold l; lia).
  replace (l <? 1) with false by (symmetry; apply Z.ltb_ge; unfold l; lia).
  unfold bind at 1, on_conn at 1. cbn [s_conn seq_n seq_mod last_heading].
  replace (Z.to_nat l) with (length (content ++ [chk]))
    by (unfold l; rewrite length_app; cbn; lia).
  rewrite (conn_read_chunk (length (content ++ [chk])) _ (content ++ [chk]) rest)
    by (cbn; first [reflexivity | rewrite length_app; cbn; lia]).
  rewrite Nat.leb_refl, firstn_all.
  destruct (removelast_last_app content chk) as [R1 R2]. rewrite R1, R2.
  destruct (content ++ [chk]) eqn:E;
    [symmetry in E; apply app_cons_not_nil in E; contradiction |].
  rewrite Z.eqb_refl.
  destruct make as [f |]; cbn; [| reflexivity].
  destruct (f content); reflexivity.
Qed.


(** A well-formed reply in the 16-bit length form (second start byte
    [FE], length split over header bytes 4 and 5) is decoded the same way:
    [recv_msg] rebuilds the length from the two bytes, reads exactly that
    many, and consumes the frame. *)
Theorem recv_msg_ext_round_trip {A} (make : option (list Z -> res A)) (s : sphero)
    (b3 : Z) (content : list Z) (rest : list event)
    (Hc : connected (s_conn s) = true) (Hb : buffer (s_conn s) = [])
    (Hp : pending (s_conn s) = Chunk (ext_reply_frame b3 content) :: rest)
    (Hl : Z.of_nat (length content) < 65535) :
  let l := Z.of_nat (length content) + 1 in
  let chk := gen_checksum ([b3; Z.shiftr l 8; Z.land l 255] ++ content) in
  fst (recv_msg make s) =
    match decode_content make content with
    | Ok v => Ok (Some (254, b3, Z.shiftr l 8, Z.land l 255, chk, v, chk))
    | Exc e => Exc e
    end /\
  pending (s_conn (snd (recv_msg make s))) = rest /\
  buffer (s_conn (snd (recv_msg make s))) = [].
Proof.
  rewrite (recv_msg_ext_reply_frame make s b3 content rest Hc Hb Hp Hl).
  cbn. repeat split.
Qed.

Lemma recv_msg_ext_round_trip_witness :
  let s := incoming (ext_reply_frame 0 (repeat 7 300)) in
  connected (s_conn s) = true /\ buffer (s_conn s) = [] /\
  pending (s_conn s) = Chunk (ext_reply_frame 0 (repeat 7 300)) :: [] /\
  Z.of_nat (length (repeat 7 300)) < 65535 /\
  fst (recv_msg (@None (list Z -> res unit)) s) =
    Ok (Some (254, 0, 1, 45, gen_checksum ([0; 1; 45] ++ repeat 7 300),
              Raw (repeat 7 300), gen_checksum ([0; 1; 45] ++ repeat 7 300))).
Proof.
  cbv zeta. do 3 (split; [reflexivity |]). split; [rewrite repeat_length; cbn; lia |].
  apply (recv_msg_ext_round_trip None (incoming (ext_reply_frame 0 (repeat 7 300)))
           0 (repeat 7 300) []);
    first [reflexivity | rewrite repeat_length; cbn; lia].
Defined.

(** A header that announces an empty body (length 0, so not even the
    checksum byte) raises [ResponseError('Invalid body length: 0')] before
    anything more is read: whatever follows the header stays pending. *)
Theorem recv_msg_zero_length {A} (make : option (list Z -> res A)) (s : sphero)
    (sop2 b3 b4 : Z) (more : list Z) (rest : list event)
    (Hc : connected (s_conn s) = true) (Hb : buffer (s_conn s) = [])
    (Hp : pending (s_conn s) = Chunk ([255; sop2; b3; b4; 0] ++ more) :: rest)
    (Hs : sop2 = 255 \/ (sop2 = 254 /\ b4 = 0)) :
  let c := s_conn s in
  recv_msg make s =
  (Exc (ResponseError (MsgInvalidBodyLength 0)),
   mkSphero (mkConn true [] (match more with [] => rest | _ => Chunk more :: rest end)
                    (script c) (sent c) (drains c))
            (seq_n s) (seq_mod s) (last_heading s)).
Proof.
  destruct s as [c n m lh]. cbn [s_conn] in Hc, Hb, Hp |- *. cbv zeta.
  unfold recv_msg, bind at 1, on_conn at 1. cbn [s_conn].
  rewrite (conn_read_chunk 5 c _ rest Hc Hb Hp) by (rewrite length_app; cbn; lia).
  cbn [firstn skipn app length].
  destruct Hs as [-> | [-> ->]]; destruct more; reflexivity.
Qed.

Lemma recv_msg_zero_length_witness :
  connected (s_conn (incoming [255; 254; 0; 0; 0; 9; 9])) = true /\
  buffer (s_conn (incoming [255; 254; 0; 0; 0; 9; 9])) = [] /\
  pending (s_conn (incoming [255; 254; 0; 0; 0; 9; 9])) =
    Chunk ([255; 254; 0; 0; 0] ++ [9; 9]) :: [] /\
  (254 = 255 \/ (254 = 254 /\ 0 = 0)) /\
  fst (recv_msg (@None (list Z -> res unit)) (incoming [255; 254; 0; 0; 0; 9; 9])) =
    Exc (ResponseError (MsgInvalidBodyLength 0)).
Proof.
  do 3 (split; [reflexivity |]). split; [right; split; reflexivity |].
  rewrite (recv_msg_zero_length None (incoming [255; 254; 0; 0; 0; 9; 9]) 254 0 0 [9; 9] []);
    first [reflexivity | right; split; reflexivity].
Defined.

(** ** Queries answered by the device *)

Lemma make_version_other (l : list Z) :
  length l <> 10%nat -> make_version l = Exc StructError.
Proof.
  intros H. do 10 (destruct l as [|? l]; [reflexivity |]).
  destruct l; [cbn in H; congruence | reflexivity].
Qed.

(** [send_get_version] end to end: after sending the version query, a
    reply whose content has ten bytes is unpacked field by field into a
    [Version]; any other content length raises [struct.error]. *)
Theorem send_get_version_reply (s : sphero) (b3 b4 : Z) (content : list Z)
    (tr : list (list event))
    (Hc : connected (s_conn s) = true) (Hm : seq_mod s = 256) (Hn : 0 <= seq_n s < 256)
    (Hb : buffer (s_conn s) = []) (Hp : pending (s_conn s) = [])
    (Hs : script (s_conn s) = [Chunk (reply_frame b3 b4 content)] :: tr)
    (Hl : (length content < 255)%nat) :
  let l := Z.of_nat (length content) + 1 in
  let chk := gen_checksum ([b3; b4; l] ++ content) in
  (forall a0 a1 a2 a3 a4 a5 a6 a7 a8 a9,
     content = [a0; a1; a2; a3; a4; a5; a6; a7; a8; a9] ->
     fst (send_get_version s) =
       Ok (Some (255, b3, b4, 11, chk, Made (mkVersion a0 a1 a2 a3 a4 a5 a6 a7 a8 a9), chk))) /\
  (length content <> 10%nat -> fst (send_get_version s) = Exc StructError).
Proof.
  cbv zeta.
  assert (E : send_get_version s =
            recv_msg (Some make_version)
              (mkSphero (mkConn true [] [Chunk (reply_frame b3 b4 content)] tr
                          (sent (s_conn s) ++
                           [[255; 255; DID_CORE; CMD_VERSIONING; (seq_n s + 1) mod 256; 1;
                             gen_checksum [DID_CORE; CMD_VERSIONING; (seq_n s + 1) mod 256; 1]]])
                          (drains (s_conn s)))
                        ((seq_n s + 1) mod 256) 256 (last_heading s))).
  { unfold send_get_version, bind at 1.
    rewrite send_msg_answer_none by (unfold DID_CORE, CMD_VERSIONING; lia).
    cbv zeta. rewrite Hc, Hb, Hp, Hs. reflexivity. }
  rewrite E.
  rewrite (recv_msg_reply_frame (Some make_version) _ b3 b4 content []) by first [reflexivity | exact Hl].
  cbn [fst decode_content]. split.
  - intros a0 a1 a2 a3 a4 a5 a6 a7 a8 a9 ->. reflexivity.
  - intros H. rewrite (make_version_other content H). reflexivity.
Qed.

Lemma send_get_version_reply_witness :
  let s := connected_sphero [[Chunk (reply_frame 0 1 [1; 2; 3; 4; 5; 6; 7; 8; 9; 10])]] in
  connected (s_conn s) = true /\ seq_mod s = 256 /\ 0 <= seq_n s < 256 /\
  buffer (s_conn s) = [] /\ pending (s_conn s) = [] /\
  script (s_conn s) = [Chunk (reply_frame 0 1 [1; 2; 3; 4; 5; 6; 7; 8; 9; 10])] :: [] /\
  (length [1; 2; 3; 4; 5; 6; 7; 8; 9; 10] < 255)%nat /\
  fst (send_get_version s) =
    Ok (Some (255, 0, 1, 11, gen_checksum [0; 1; 11; 1; 2; 3; 4; 5; 6; 7; 8; 9; 10],
              Made (mkVersion 1 2 3 4 5 6 7 8 9 10),
              gen_checksum [0; 1; 11; 1; 2; 3; 4; 5; 6; 7; 8; 9; 10])).
Proof.
  cbv zeta. do 2 (split; [reflexivity |]). split; [cbn; lia |].
  do 3 (split; [reflexivity |]). split; [cbn; lia |].
  apply (proj1 (send_get_version_reply
                  (connected_sphero [[Chunk (reply_frame 0 1 [1; 2; 3; 4; 5; 6; 7; 8; 9; 10])]])
                  0 1 [1; 2; 3; 4; 5; 6; 7; 8; 9; 10] []
                  ltac:(reflexivity) ltac:(reflexivity) ltac:(cbn; lia) ltac:(reflexivity)
                  ltac:(reflexivity) ltac:(reflexivity) ltac:(cbn; lia))).
  reflexivity.
Defined.

Lemma be_u16_enc16 (v : Z) :
  be_u16 ((v mod 65536) / 256) ((v mod 65536) mod 256) = v mod 65536.
Proof.
  unfold be_u16. rewrite (Z.div_mod (v mod 65536) 256) at 3 by lia. lia.
Qed.

Lemma be_s16_enc16 (v : Z) :
  -32768 <= v < 32768 -> be_s16 ((v mod 65536) / 256) ((v mod 65536) mod 256) = v.
Proof.
  intros H. unfold be_s16. rewrite be_u16_enc16.
  destruct (Z.ltb_spec v 0) as [Neg | Pos].
  - rewrite <- (Z.mod_unique v 65536 (-1) (v + 65536)) by lia.
    replace (v + 65536 >=? 32768) with true by (symmetry; apply Z.geb_le; lia). lia.
  - rewrite Z.mod_small by lia.
    replace (v >=? 32768) with false by (symmetry; rewrite Z.geb_leb; apply Z.leb_gt; lia). reflexivity.
Qed.

(** [send_read_locator] end to end: after sending the locator query, a
    ten-byte reply carrying the position and velocity as signed 16-bit
    fields and the speed over ground as an unsigned one, big-endian, is
    decoded into the [Location] with exactly those values, negative ones
    included. *)
Theorem send_read_locator_reply (s : sphero) (b3 b4 x y vx vy sog : Z)
    (tr : list (list event))
    (Hc : connected (s_conn s) = true) (Hm : seq_mod s = 256) (Hn : 0 <= seq_n s < 256)
    (Hb : buffer (s_conn s) = []) (Hp : pending (s_conn s) = [])
    (Hs : script (s_conn s) =
            [Chunk (reply_frame b3 b4 (enc16 x ++ enc16 y ++ enc16 vx ++ enc16 vy ++ enc16 sog))]
            :: tr)
    (Hx : -32768 <= x < 32768) (Hy : -32768 <= y < 32768)
    (Hvx : -32768 <= vx < 32768) (Hvy : -32768 <= vy < 32768) (Hg : 0 <= sog < 65536) :
  let content := enc16 x ++ enc16 y ++ enc16 vx ++ enc16 vy ++ enc16 sog in
  let chk := gen_checksum ([b3; b4; 11] ++ content) in
  fst (send_read_locator s) = Ok (Some (255, b3, b4, 11, chk, Made (mkLocation x y vx vy sog), chk)).
Proof.
  cbv zeta.
  set (content := enc16 x ++ enc16 y ++ enc16 vx ++ enc16 vy ++ enc16 sog) in *.
  assert (E : send_read_locator s =
            recv_msg (Some make_location)
              (mkSphero (mkConn true [] [Chunk (reply_frame b3 b4 content)] tr
                          (sent (s_conn s) ++
                           [[255; 255; DID_SPHERO; CMD_READ_LOCATOR; (seq_n s + 1) mod 256; 1;
                             gen_checksum [DID_SPHERO; CMD_READ_LOCATOR; (seq_n s + 1) mod 256; 1]]])
                          (drains (s_conn s)))
                        ((seq_n s + 1) mod 256) 256 (last_heading s))).
  { unfold send_read_locator, bind at 1.
    rewrite send_msg_answer_none by (unfold DID_SPHERO, CMD_READ_LOCATOR; lia).
    cbv zeta. rewrite Hc, Hb, Hp, Hs. reflexivity. }
  rewrite E.
  rewrite (recv_msg_reply_frame (Some make_location) _ b3 b4 content [])
    by first [reflexivity | cbn; lia].
  cbn [fst decode_content]. unfold content, enc16. cbn [app make_location length].
  rewrite !be_s16_enc16, be_u16_enc16, (Z.mod_small sog) by assumption.
  reflexivity.
Qed.

Lemma send_read_locator_reply_witness :
  let s := connected_sphero
             [[Chunk (reply_frame 0 1 (enc16 (-5) ++ enc16 300 ++ enc16 (-32768) ++
                                       enc16 32767 ++ enc16 65535))]] in
  connected (s_conn s) = true /\ seq_mod s = 256 /\ 0 <= seq_n s < 256 /\
  buffer (s_conn s) = [] /\ pending (s_conn s) = [] /\
  fst (send_read_locator s) =
    Ok (Some (255, 0, 1, 11,
              gen_checksum ([0; 1; 11] ++ enc16 (-5) ++ enc16 300 ++ enc16 (-32768) ++
                            enc16 32767 ++ enc16 65535),
              Made (mkLocation (-5) 300 (-32768) 32767 65535),
              gen_checksum ([0; 1; 11] ++ enc16 (-5) ++ enc16 300 ++ enc16 (-32768) ++
                            enc16 32767 ++ enc16 65535))).
Proof.
  cbv zeta. do 2 (split; [reflexivity |]). split; [cbn; lia |].
  do 2 (split; [reflexivity |]).
  apply (send_read_locator_reply _ 0 1 (-5) 300 (-32768) 32767 65535 []);
    first [reflexivity | lia | cbn; lia].
Defined.

(** ** Commands with arguments *)

(** [send_set_heading] accepts every integer: Python's [%] maps it into
    [0, 360), so [struct.pack('!H', ...)] never fails, and the frame carries
    [heading % 360] big-endian; the sequence counter is left alone. *)
Theorem send_set_heading_any (s : sphero) (h : Z) (Hc : connected (s_conn s) = true) :
  let a := h mod 360 in
  exists s', send_set_heading h s = (Ok tt, s') /\
    sent (s_conn s') = sent (s_conn s) ++
      [[255; 254; 2; 1; 0; 3; a / 256; a mod 256; gen_checksum [2; 1; 0; 3; a / 256; a mod 256]]] /\
    seq_n s' = seq_n s /\ 0 <= a / 256 * 256 + a mod 256 < 360.
Proof.
  cbv zeta. pose proof (Z.mod_pos_bound h 360 ltac:(lia)) as Hr.
  unfold send_set_heading, bind at 1, raise_res, pack_H.
  replace ((0 <=? h mod 360) && (h mod 360 <? 65536)) with true
    by (symmetry; apply andb_true_iff; split; [apply Z.leb_le | apply Z.ltb_lt]; lia).
  rewrite Z.shiftr_div_pow2 by lia. change (2 ^ 8) with 256.
  replace (Z.land (h mod 360) 255) with ((h mod 360) mod 256)
    by (change 255 with (Z.ones 8); rewrite Z.land_ones by lia; reflexivity).
  unfold ret. rewrite (send_msg_noanswer s DID_SPHERO CMD_SET_HEADING
                               [h mod 360 / 256; h mod 360 mod 256] Hc eq_refl).
  eexists. split; [reflexivity |]. split; [reflexivity |]. split; [reflexivity |].
  rewrite (Z.mul_comm (h mod 360 / 256)), <- Z.div_mod by lia. lia.
Qed.

Lemma send_set_heading_any_witness :
  connected (s_conn (connected_sphero [])) = true /\
  exists s', send_set_heading (-90) (connected_sphero []) = (Ok tt, s') /\
    sent (s_conn s') = sent (s_conn (connected_sphero [])) ++
      [[255; 254; 2; 1; 0; 3; (-90) mod 360 / 256; (-90) mod 360 mod 256;
        gen_checksum [2; 1; 0; 3; (-90) mod 360 / 256; (-90) mod 360 mod 256]]] /\
    seq_n s' = seq_n (connected_sphero []) /\
    0 <= (-90) mod 360 / 256 * 256 + (-90) mod 360 mod 256 < 360.
Proof.
  split; [reflexivity | apply (send_set_heading_any (connected_sphero []) (-90)); reflexivity].
Defined.

(** [Sphero.roll] stores the heading before [send_roll] packs the speed:
    a speed outside [0, 255] raises [struct.error] with nothing sent, but
    the new heading is kept, and a following [off] rolls to a stop towards
    it. *)
Theorem roll_bad_speed_keeps_heading (s : sphero) (speed h state : Z)
    (Hc : connected (s_conn s) = true) (Hsp : speed < 0 \/ 256 <= speed) :
  roll speed (VInt h) state s =
    (Exc StructError, mkSphero (s_conn s) (seq_n s) (seq_mod s) (VInt h)) /\
  exists s', off (snd (roll speed (VInt h) state s)) = (Ok tt, s') /\
    sent (s_conn s') = sent (s_conn s) ++ [roll_frame 0 (h mod 360) 0].
Proof.
  pose proof (Z.mod_pos_bound h 360 ltac:(lia)) as Hr.
  assert (E : roll speed (VInt h) state s =
              (Exc StructError, mkSphero (s_conn s) (seq_n s) (seq_mod s) (VInt h))).
  { unfold roll, send_roll, bind, raise_res, py_mod360, ret. cbn [s_conn seq_n seq_mod].
    unfold pack_BHB.
    replace ((0 <=? speed) && (speed <? 256)) with false
      by (symmetry; apply andb_false_iff; destruct Hsp;
          [left; apply Z.leb_gt | right; apply Z.ltb_ge]; lia).
    reflexivity. }
  split; [exact E |]. rewrite E. cbn [snd].
  unfold off, roll, send_roll, get, bind, raise_res, py_mod360, ret.
  cbn [s_conn seq_n seq_mod last_heading]. unfold pack_BHB.
  rewrite (proj2 (Z.leb_le 0 (h mod 360))), (proj2 (Z.ltb_lt (h mod 360) 65536)) by lia.
  cbn -[send_msg Z.shiftr Z.land Z.modulo].
  rewrite (send_msg_noanswer (mkSphero (s_conn s) (seq_n s) (seq_mod s) (VInt h))
             DID_SPHERO CMD_ROLL [0; Z.shiftr (h mod 360) 8; Z.land (h mod 360) 255; 0]
             Hc eq_refl).
  eexists. split; reflexivity.
Qed.

Lemma roll_bad_speed_keeps_heading_witness :
  connected (s_conn (connected_sphero [])) = true /\ (300 < 0 \/ 256 <= 300) /\
  roll 300 (VInt 90) 1 (connected_sphero []) =
    (Exc StructError, mkSphero (s_conn (connected_sphero [])) (seq_n (connected_sphero []))
                               (seq_mod (connected_sphero [])) (VInt 90)).
Proof.
  split; [reflexivity |]. split; [right; lia |].
  apply (roll_bad_speed_keeps_heading (connected_sphero []) 300 90 1); [reflexivity | right; lia].
Defined.

Lemma py_bytes_bad (l : list Z) :
  ~ Forall (fun x => 0 <= x < 256) l -> py_bytes l = Exc ValueError.
Proof.
  intros H. unfold py_bytes. destruct (forallb _ l) eqn:E; [| reflexivity].
  exfalso. apply H. apply Forall_forall. intros x Hx.
  rewrite forallb_forall in E. specialize (E x Hx).
  apply andb_true_iff in E. destruct E as [E1 E2].
  apply Z.leb_le in E1. apply Z.ltb_lt in E2. lia.
Qed.

(** The byte arguments of [set_rgb], [set_backlight] and [send_raw_motor]
    go through [bytes([...])]: one of them outside [0, 255] raises
    [ValueError] before anything is sent, leaving the session (connection,
    counter, heading) exactly as it was. *)
Theorem byte_args_rejected (s : sphero) (r g b v lm lp rm rp : Z) (save : bool) :
  (~ Forall (fun x => 0 <= x < 256) [r; g; b] ->
   send_set_rgb r g b save s = (Exc ValueError, s)) /\
  (~ (0 <= v < 256) -> send_set_backlight v s = (Exc ValueError, s)) /\
  (~ Forall (fun x => 0 <= x < 256) [lm; lp; rm; rp] ->
   send_raw_motor lm lp rm rp s = (Exc ValueError, s)).
Proof.
  repeat split; intros H.
  - unfold send_set_rgb, bind, raise_res, raise.
    rewrite py_bytes_bad; [reflexivity |].
    intros F. apply H. inversion F as [| ? ? F1 F2]; subst.
    inversion F2 as [| ? ? F3 F4]; subst. inversion F4 as [| ? ? F5 F6]; subst.
    repeat (constructor; [assumption |]); constructor.
  - unfold send_set_backlight, bind, raise_res, raise.
    rewrite py_bytes_bad; [reflexivity |].
    intros F. apply H. inversion F; assumption.
  - unfold send_raw_motor, bind, raise_res, raise.
    rewrite py_bytes_bad; [reflexivity | exact H].
Qed.

Lemma byte_args_rejected_witness :
  ~ Forall (fun x => 0 <= x < 256) [256; 0; 0] /\
  send_set_rgb 256 0 0 false (connected_sphero []) = (Exc ValueError, connected_sphero []).
Proof.
  assert (N : ~ Forall (fun x => 0 <= x < 256) [256; 0; 0])
    by (intros F; inversion F; lia).
  split; [exact N |].
  exact (proj1 (byte_args_rejected (connected_sphero []) 256 0 0 0 0 0 0 0 false) N).
Defined.

(** ** The demonstration script *)

Lemma send_set_rgb_ok (s : sphero) (r g b : Z) (Hc : connected (s_conn s) = true)
    (Hr : 0 <= r < 256) (Hg : 0 <= g < 256) (Hb : 0 <= b < 256) :
  exists s', send_set_rgb r g b false s = (Ok tt, s') /\
    connected (s_conn s') = true /\
    sent (s_conn s') = sent (s_conn s) ++ [rgb_frame (r, g, b)] /\
    seq_n s' = seq_n s /\ seq_mod s' = seq_mod s /\ last_heading s' = last_heading s.
Proof.
  unfold send_set_rgb, bind at 1, raise_res.
  rewrite py_bytes_range by (repeat (constructor; [lia |]); constructor).
  unfold ret. rewrite (send_msg_noanswer s DID_SPHERO CMD_SET_RGB [r; g; b; 0] Hc eq_refl).
  eexists. repeat split.
Qed.

Lemma set_rgb_all_ok (cs : list (Z * Z * Z)) (s : sphero) (Hc : connected (s_conn s) = true)
    (Hcs : Forall (fun c => let '(r, g, b) := c in
                            0 <= r < 256 /\ 0 <= g < 256 /\ 0 <= b < 256) cs) :
  exists s', set_rgb_all cs s = (Ok tt, s') /\
    connected (s_conn s') = true /\
    sent (s_conn s') = sent (s_conn s) ++ map rgb_frame cs /\
    seq_n s' = seq_n s /\ seq_mod s' = seq_mod s /\ last_heading s' = last_heading s.
Proof.
  revert s Hc. induction Hcs as [| [[r g] b] cs [Hr [Hg Hb]] _ IH]; intros s Hc.
  - exists s. rewrite app_nil_r. repeat split; assumption.
  - destruct (send_set_rgb_ok s r g b Hc Hr Hg Hb) as [s1 [E1 [C1 [S1 [N1 [M1 L1]]]]]].
    destruct (IH s1 C1) as [s2 [E2 [C2 [S2 [N2 [M2 L2]]]]]].
    exists s2. cbn [set_rgb_all]. unfold bind at 1. rewrite E1, E2.
    repeat split; try congruence.
    rewrite S2, S1, <- app_assoc. reflexivity.
Qed.

(** [rainbow(repeat=k)] on a connected session sends one colour frame
    per entry of [colors * k], in order, then the frame that turns the
    light off; for [k <= 0] only the last one.  The counter and the heading
    stay as they were. *)
Theorem rainbow_frames (s : sphero) (k : Z) (Hc : connected (s_conn s) = true) :
  exists s', rainbow k s = (Ok tt, s') /\
    sent (s_conn s') = sent (s_conn s) ++
      map rgb_frame (concat (repeat rainbow_colors (Z.to_nat k))) ++ [rgb_frame (0, 0, 0)] /\
    seq_n s' = seq_n s /\ last_heading s' = last_heading s.
Proof.
  assert (F : Forall (fun c => let '(r, g, b) := c in
                               0 <= r < 256 /\ 0 <= g < 256 /\ 0 <= b < 256)
                     (concat (repeat rainbow_colors (Z.to_nat k)))).
  { apply Forall_forall. intros x Hx. apply in_concat in Hx.
    destruct Hx as [l [Hl Hx]]. apply repeat_spec in Hl. subst l.
    cbn in Hx. repeat destruct Hx as [Hx | Hx]; subst; try contradiction; lia. }
  destruct (set_rgb_all_ok _ s Hc F) as [s1 [E1 [C1 [S1 [N1 [M1 L1]]]]]].
  destruct (send_set_rgb_ok s1 0 0 0 C1 ltac:(lia) ltac:(lia) ltac:(lia))
    as [s2 [E2 [C2 [S2 [N2 [M2 L2]]]]]].
  exists s2. unfold rainbow, bind. rewrite E1, E2.
  repeat split; try congruence.
  rewrite S2, S1, <- app_assoc. reflexivity.
Qed.

Lemma roll_ok (s : sphero) (speed h state : Z) (Hc : connected (s_conn s) = true)
    (Hsp : 0 <= speed < 256) (Hst : 0 <= state < 256) :
  roll speed (VInt h) state s =
  (Ok tt, mkSphero (mkConn true (buffer (s_conn s))
                           (pending (s_conn s) ++ hd [] (script (s_conn s)))
                           (tl (script (s_conn s)))
                           (sent (s_conn s) ++ [roll_frame speed (h mod 360) state])
                           (drains (s_conn s)))
                   (seq_n s) (seq_mod s) (VInt h)).
Proof.
  pose proof (Z.mod_pos_bound h 360 ltac:(lia)) as Hr.
  unfold roll, send_roll, bind, raise_res, py_mod360, ret.
  cbn [s_conn seq_n seq_mod last_heading]. unfold pack_BHB.
  rewrite (proj2 (Z.leb_le 0 speed)), (proj2 (Z.ltb_lt speed 256)),
          (proj2 (Z.leb_le 0 (h mod 360))), (proj2 (Z.ltb_lt (h mod 360) 65536)),
          (proj2 (Z.leb_le 0 state)), (proj2 (Z.ltb_lt state 256)) by lia.
  cbn [andb].
  rewrite (send_msg_noanswer (mkSphero (s_conn s) (seq_n s) (seq_mod s) (VInt h))
             DID_SPHERO CMD_ROLL [speed; Z.shiftr (h mod 360) 8; Z.land (h mod 360) 255; state]
             Hc eq_refl).
  reflexivity.
Qed.

(** [jump(speed, left, right)] on a connected session sends, in order:
    the roll frame for [speed] at heading 0, the raw-motor frame with
    both motors forward at [left] and [right], the frame that turns
    stabilisation back on, and the roll frame of [stop]; the heading is
    left at 0. *)
Theorem jump_frames (s : sphero) (speed left right : Z) (Hc : connected (s_conn s) = true)
    (Hsp : 0 <= speed < 256) (Hl : 0 <= left < 256) (Hr : 0 <= right < 256) :
  exists s', jump speed left right s = (Ok tt, s') /\
    sent (s_conn s') = sent (s_conn s) ++
      [roll_frame speed 0 1;
       [255; 254; 2; 51; 0; 5; 1; left; 1; right; gen_checksum [2; 51; 0; 5; 1; left; 1; right]];
       [255; 254; 2; 2; 0; 2; 1; gen_checksum [2; 2; 0; 2; 1]];
       roll_frame 0 0 0] /\
    last_heading s' = VInt 0 /\ seq_n s' = seq_n s.
Proof.
  unfold jump, bind at 1. rewrite roll_ok by (first [exact Hc | lia]).
  change (0 mod 360) with 0.
  unfold bind at 1, send_raw_motor, bind at 1, raise_res.
  rewrite py_bytes_range by (repeat (constructor; [lia |]); constructor).
  unfold ret. rewrite send_msg_noanswer by reflexivity.
  unfold bind at 1, send_set_stabilization. unfold bind at 1.
  replace (py_bytes [if true then 1 else 0]) with (@Ok (list Z) [1]) by reflexivity.
  unfold raise_res, ret. rewrite send_msg_noanswer by reflexivity.
  unfold stop, bind at 1. rewrite roll_ok by (first [reflexivity | lia]).
  change (0 mod 360) with 0.
  eexists. split; [reflexivity |]. cbn [s_conn sent last_heading seq_n].
  rewrite <- !app_assoc. repeat split.
Qed.

Lemma rainbow_frames_witness :
  connected (s_conn (connected_sphero [])) = true /\
  exists s', rainbow 2 (connected_sphero []) = (Ok tt, s') /\
    sent (s_conn s') = sent (s_conn (connected_sphero [])) ++
      map rgb_frame (concat (repeat rainbow_colors (Z.to_nat 2))) ++ [rgb_frame (0, 0, 0)] /\
    seq_n s' = seq_n (connected_sphero []) /\
    last_heading s' = last_heading (connected_sphero []).
Proof.
  split; [reflexivity | apply (rainbow_frames (connected_sphero []) 2); reflexivity].
Defined.

Lemma jump_frames_witness :
  connected (s_conn (connected_sphero [])) = true /\
  0 <= 70 < 256 /\ 0 <= 255 < 256 /\ 0 <= 253 < 256 /\
  exists s', jump 70 255 253 (connected_sphero []) = (Ok tt, s') /\
    sent (s_conn s') = sent (s_conn (connected_sphero [])) ++
      [roll_frame 70 0 1;
       [255; 254; 2; 51; 0; 5; 1; 255; 1; 253; gen_checksum [2; 51; 0; 5; 1; 255; 1; 253]];
       [255; 254; 2; 2; 0; 2; 1; gen_checksum [2; 2; 0; 2; 1]];
       roll_frame 0 0 0] /\
    last_heading s' = VInt 0 /\ seq_n s' = seq_n (connected_sphero []).
Proof.
  split; [reflexivity |]. do 3 (split; [lia |]).
  apply (jump_frames (connected_sphero []) 70 255 253); first [reflexivity | lia].
Defined.

(** ** What [recv_msg] never returns *)

Lemma sock_recv_buffer (m : Z) (c c' : conn) (r : res (list Z)) :
  sock_recv m c = (r, c') -> buffer c' = buffer c.
Proof.
  unfold sock_recv. destruct (negb (connected c)); [intros H; inversion H; reflexivity |].
  destruct (pending c) as [| [b |] rest]; intros H; inversion H; reflexivity.
Qed.

Lemma read_loop_fills (fuel : nat) (t : Z) (c c1 : conn) (u : unit) :
  read_loop fuel t c = (Ok u, c1) -> (Z.to_nat t < fuel)%nat ->
  Z.of_nat (length (buffer c1)) >= Z.of_nat (length (buffer c)) + t.
Proof.
  revert t c. induction fuel as [| f IH]; intros t c H Hf; [lia |].
  cbn [read_loop] in H. destruct (Z.gtb_spec t 0) as [Pos | Neg].
  - destruct (sock_recv t c) as [[d | e] c2] eqn:E; [| discriminate].
    apply sock_recv_buffer in E.
    destruct d as [| x d]; [discriminate |].
    apply IH in H.
    + cbn [buffer set_buffer] in H. rewrite length_app, E in H. cbn [length] in *. lia.
    + cbn [length]. lia.
  - inversion H; subst. lia.
Qed.

Lemma conn_read_length (n : nat) (c c' : conn) (d : list Z) :
  conn_read n c = (Ok d, c') -> length d = n.
Proof.
  unfold conn_read.
  destruct (read_loop _ _ c) as [[u | e] c1] eqn:E; intros H; inversion H; subst.
  apply read_loop_fills in E; [| lia].
  rewrite length_firstn. lia.
Qed.

(** [Connection.read] either raises or returns exactly the bytes asked
    for, so the two [Disconnected] branches of [recv_msg] (the ones that
    return [None]) are dead code: [recv_msg] either raises or returns a
    decoded reply. *)
Theorem recv_msg_never_none {A} (make : option (list Z -> res A)) (s : sphero) :
  fst (recv_msg make s) <> Ok None.
Proof.
  unfold recv_msg, bind, on_conn.
  destruct (conn_read 5 (s_conn s)) as [[d | e] c1] eqn:E1; [| discriminate].
  apply conn_read_length in E1.
  do 5 (destruct d as [| ? d]; [discriminate |]). destruct d; [| discriminate].
  cbn [seq_n seq_mod last_heading s_conn].
  repeat match goal with
         | |- context [if ?b then _ else _] => destruct b eqn:?
         end; try discriminate.
  all: match goal with
       | |- context [conn_read ?k ?c] => destruct (conn_read k c) as [[b | e] c2] eqn:E2
       end; [| discriminate].
  all: apply conn_read_length in E2; destruct b as [| x b].
  all: repeat match goal with
              | H : context [if ?b then _ else _], H' : ?b = _ |- _ => rewrite H' in H
              end.
  all: try (match goal with H : (_ <? 1) = false |- _ => apply Z.ltb_ge in H end;
            cbn [length] in E2; lia).
  all: repeat match goal with
              | |- context [if ?b then _ else _] => destruct b
              | |- context [match ?m with Some _ => _ | None => _ end] => destruct m
              end; unfold raise_res, ret, raise; cbn;
       repeat match goal with
              | |- context [match ?r with Ok _ => _ | Exc _ => _ end] => destruct r
              end; cbn; discriminate.
Qed.
